(** * Job-lifecycle coordinator of the LCA extension (service_worker.js)

    A shallow embedding of the background script: the job store kept in
    [chrome.storage.local] under the key [jobs], the storage helpers
    [saveJob], [updateJob] and [getJobById], and the coordinator operations
    [submitJob], [pollJobStatus], [cancelJob] and [getMockResponse]; and of
    the parts of the jobs page (jobs.js) and of the popup that act on the
    store or on the polling.

    Modelling choices:
    - JSON values (request and response bodies, job fields that the code
      copies from backend responses) are the inductive [json]; numbers are
      exact rationals.  [undefined] is [None] where the code can observe it.
    - Every [await] on storage reads the current store and every
      [chrome.storage.local.set] writes a new one; the store is a list of
      job records in collection order.
    - The backend is an oracle [backend] answering each HTTP call; a poll
      loop gets one per attempt, so its answers may change from one
      invocation to the next.  The effects the coordinator performs on the
      outside world (HTTP calls, the start of a poll loop) are returned as
      a list of [effect]s.
    - A [setTimeout(() => pollJobStatus(..., attempt + 1), delay)] is
      returned as [Some (delay, attempt + 1)]; a poll loop runs these
      scheduled invocations one after another. *)

From Stdlib Require Import String List ZArith QArith Bool Lia.
From Stdlib Require Import DecimalString.
Import ListNotations.
Open Scope string_scope.
Set Warnings "-register-all".


(** ** JSON values *)

Inductive json : Type :=
| JNull
| JBool (b : bool)
| JNum (q : Q)
| JStr (s : string)
| JArr (l : list json)
| JObj (fs : list (string * json)).

Fixpoint assoc (k : string) (fs : list (string * json)) : option json :=
  match fs with
  | [] => None
  | (k', v) :: fs' => if String.eqb k k' then Some v else assoc k fs'
  end.

(** [o.k]: [JSON.parse] keeps the last occurrence of a duplicated key;
    a property of a non-object is [undefined]. *)
Definition json_get (k : string) (o : json) : option json :=
  match o with
  | JObj fs => assoc k (rev fs)
  | _ => None
  end.

(** JavaScript truthiness of a possibly [undefined] value. *)
Definition truthy (v : option json) : bool :=
  match v with
  | None => false
  | Some JNull => false
  | Some (JBool b) => b
  | Some (JNum q) => negb (Qeq_bool q 0)
  | Some (JStr s) => negb (String.eqb s "")
  | Some (JArr _) => true
  | Some (JObj _) => true
  end.

(** [v === 'lit'] for a string literal. *)
Definition is_str (v : json) (lit : string) : bool :=
  match v with
  | JStr s => String.eqb s lit
  | _ => false
  end.

(** [{ ...o, k: v }]: an existing key keeps its position, a new one is
    appended. *)
Fixpoint set_assoc (k : string) (v : json) (fs : list (string * json))
  : list (string * json) :=
  match fs with
  | [] => [(k, v)]
  | (k', v') :: fs' =>
      if String.eqb k k' then (k', v) :: fs' else (k', v') :: set_assoc k v fs'
  end.

(** The own enumerable properties of a string or an array: its indices
    ["0"], ["1"], ... with the characters (one-character strings; the
    model's strings are ASCII) or the elements. *)
Fixpoint index_fields {A : Type} (f : A -> json) (i : nat) (l : list A)
  : list (string * json) :=
  match l with
  | [] => []
  | x :: l' => (NilZero.string_of_int (Z.to_int (Z.of_nat i)), f x) :: index_fields f (S i) l'
  end.

(** [{ ...o, k: v }]: an object's properties, a string's characters or an
    array's elements under their indices; numbers and booleans have no own
    properties. *)
Definition spread_with (o : json) (k : string) (v : json) : json :=
  match o with
  | JObj fs => JObj (set_assoc k v fs)
  | JStr str =>
      JObj (set_assoc k v (index_fields (fun c => JStr (String c EmptyString)) 0
                             (list_ascii_of_string str)))
  | JArr l => JObj (set_assoc k v (index_fields (fun x => x) 0 l))
  | _ => JObj [(k, v)]
  end.

(** ** Configuration (CONFIG) *)

Definition MAX_RETRIES : Z := 3.
Definition POLL_INTERVAL_MS : Q := 2000.
Definition POLL_MAX_ATTEMPTS : nat := 60.
Definition BACKOFF_MULTIPLIER : Q := 3 # 2.

(** [Math.pow(BACKOFF_MULTIPLIER, n)] for a non-negative integer [n]. *)
Fixpoint qpow (q : Q) (n : nat) : Q :=
  match n with
  | O => 1
  | S n' => q * qpow q n'
  end.

(** ** Job records and the store *)

Record JobRecord : Type := mkJob {
  id : string;
  backendJobId : option json;
  url : option json;
  payload : json;
  status : json;
  progress : option json;
  createdAt : string;
  updatedAt : string;
  retries : Z;
  error : json;
  result : json
}.

Definition set_status (s : json) (j : JobRecord) : JobRecord :=
  mkJob j.(id) j.(backendJobId) j.(url) j.(payload) s j.(progress)
        j.(createdAt) j.(updatedAt) j.(retries) j.(error) j.(result).
Definition set_progress (p : option json) (j : JobRecord) : JobRecord :=
  mkJob j.(id) j.(backendJobId) j.(url) j.(payload) j.(status) p
        j.(createdAt) j.(updatedAt) j.(retries) j.(error) j.(result).
Definition set_updatedAt (t : string) (j : JobRecord) : JobRecord :=
  mkJob j.(id) j.(backendJobId) j.(url) j.(payload) j.(status) j.(progress)
        j.(createdAt) t j.(retries) j.(error) j.(result).
Definition set_error (e : json) (j : JobRecord) : JobRecord :=
  mkJob j.(id) j.(backendJobId) j.(url) j.(payload) j.(status) j.(progress)
        j.(createdAt) j.(updatedAt) j.(retries) e j.(result).
Definition set_result (r : json) (j : JobRecord) : JobRecord :=
  mkJob j.(id) j.(backendJobId) j.(url) j.(payload) j.(status) j.(progress)
        j.(createdAt) j.(updatedAt) j.(retries) j.(error) r.
Definition set_backendJobId (b : option json) (j : JobRecord) : JobRecord :=
  mkJob j.(id) b j.(url) j.(payload) j.(status) j.(progress)
        j.(createdAt) j.(updatedAt) j.(retries) j.(error) j.(result).

(** The [jobs] array of [chrome.storage.local] ([jobs = []] when unset). *)
Definition store := list JobRecord.

(** [saveJob]: read the array, [push], write it back. *)
Definition saveJob (jobs : store) (job : JobRecord) : store :=
  (jobs ++ [job])%list.

(** [jobs.findIndex(j => j.id === id)], [-1] as [None]. *)
Fixpoint findIndex (jobs : store) (jid : string) : option nat :=
  match jobs with
  | [] => None
  | j :: rest =>
      if String.eqb j.(id) jid then Some O
      else option_map S (findIndex rest jid)
  end.

(** [jobs[i] = x] for an index [i] inside the array. *)
Fixpoint set_nth (jobs : store) (i : nat) (x : JobRecord) : store :=
  match jobs, i with
  | [], _ => []
  | _ :: rest, O => x :: rest
  | j :: rest, S i' => j :: set_nth rest i' x
  end.

(** [updateJob]: [findIndex] by id; when found, replace at that index and
    write the array back; otherwise write nothing. *)
Definition updateJob (jobs : store) (updatedJob : JobRecord) : store :=
  match findIndex jobs updatedJob.(id) with
  | Some i => set_nth jobs i updatedJob
  | None => jobs
  end.

(** [getJobById]: [jobs.find(j => j.id === jobId)]. *)
Definition getJobById (jobs : store) (jid : string) : option JobRecord :=
  find (fun j => String.eqb j.(id) jid) jobs.

(** ** HTTP responses and the backend *)

(** A settled [fetch]: a response with its status code, status text and
    body, where [inl msg] is a body on which [response.json()] rejects with
    [msg]; or a rejected [fetch] (network failure) with its message. *)
Inductive http_resp : Type :=
| HResp (code : Z) (statusText : string) (body : string + json)
| HNetFail (msg : string).

(** [response.ok]. *)
Definition http_ok (code : Z) : bool := Z.leb 200 code && Z.leb code 299.

(** The answers of the backend to the three authenticated endpoints, by
    the backend job id in the URL. *)
Record backend : Type := mkBackend {
  b_submit : json -> http_resp;
  b_status : json -> http_resp;
  b_result : json -> http_resp
}.

(** Effects on the outside world. *)
Inductive effect : Type :=
| ECallSubmit
| ECallStatus
| ECallResult
| EStartPoll (jobId : string).

(** Decimal rendering of a non-negative integer, as [String(n)]. *)
Definition show_Z (z : Z) : string :=
  NilZero.string_of_int (Z.to_int z).

(** ** getMockResponse *)

Definition mock_result (now_ms : Z) : json :=
  JObj [
    ("job_id", JStr ("mock-" ++ show_Z now_ms));
    ("material", JStr "aluminium");
    ("co2_kg", JNum (12345 # 100));
    ("circularity_score", JNum 67);
    ("recycled_percent", JNum 30);
    ("recommendations", JArr [
       JStr "Increase recycled content to 50% to reduce CO₂ emissions by 25%";
       JStr "Switch to renewable energy sources for production";
       JStr "Optimize transportation routes to reduce distance by 20%";
       JStr "Implement closed-loop recycling system"]);
    ("raw_json", JObj [
       ("material_composition", JObj [
          ("primary_material", JStr "aluminium");
          ("alloy_type", JStr "6061");
          ("recycled_content", JNum 30);
          ("virgin_content", JNum 70)]);
       ("energy_analysis", JObj [
          ("total_energy_kwh", JNum 100);
          ("renewable_percentage", JNum 45);
          ("grid_intensity_gco2_kwh", JNum 400)]);
       ("transport_analysis", JObj [
          ("distance_km", JNum 50);
          ("mode", JStr "truck");
          ("emissions_kg", JNum (155 # 10))]);
       ("lifecycle_phases", JObj [
          ("extraction", JNum (452 # 10));
          ("processing", JNum (528 # 10));
          ("transport", JNum (155 # 10));
          ("use_phase", JNum 0);
          ("end_of_life", JNum (100 # 10))])])].

(** [getMockResponse()] returns [{ success: true, result }]. *)
Definition getMockResponse (now_ms : Z) : json :=
  JObj [("success", JBool true); ("result", mock_result now_ms)].

(** ** submitJob *)

(** [a || b] on a possibly [undefined] left operand. *)
Definition js_or (v : option json) (d : json) : json :=
  match v with
  | Some x => if truthy v then x else d
  | None => d
  end.

(** The value of a property that may be [undefined]; [undefined] and
    [null] compare alike with every string literal and are both dropped or
    kept as null by the storage round trip, so [undefined] is [JNull]. *)
Definition or_undef (v : option json) : json :=
  match v with
  | Some x => x
  | None => JNull
  end.

(** [!backendUrl], [!apiKey] on a stored setting: missing or empty. *)
Definition configured (v : option string) : bool :=
  match v with
  | Some s => negb (String.eqb s "")
  | None => false
  end.

Inductive submit_reply : Type :=
| SubmitMock (jobId : string) (res : json)
| SubmitOk (jobId : string) (backendJobId : json).

(** [submitJob(payload, mockMode)], the payload as [payload0].  [genId] is the value of
    [generateJobId()] (a mock id in mock mode), [now_ms] is [Date.now()]
    inside [getMockResponse], [iso] is [new Date().toISOString()].  An
    [Error] that leaves the function is [inl message]. *)
Definition submitJob (b : backend) (jobs : store) (payload0 : json)
    (mockMode : bool) (backendUrl apiKey : option string) (genId : string)
    (now_ms : Z) (iso : string) : store * list effect * (string + submit_reply) :=
  if mockMode then
    let mockResult := getMockResponse now_ms in
    (jobs, [], inr (SubmitMock genId (or_undef (json_get "result" mockResult))))
  else
  if negb (configured backendUrl) then
    (jobs, [], inl "Backend URL not configured. Please set it in Options.")
  else if negb (configured apiKey) then
    (jobs, [], inl "API Key not configured. Please set it in Options.")
  else
  match payload0 with
  | JNull =>
      (* [url: payload.url] throws before [saveJob] *)
      (jobs, [], inl "Cannot read properties of null (reading 'url')")
  | _ =>
      let job := mkJob genId None (json_get "url" payload0)
                   (spread_with payload0 "job_id" (JStr genId))
                   (JStr "pending") None iso iso 0 JNull JNull in
      let jobs1 := saveJob jobs job in
      let fail (msg : string) :=
        (updateJob jobs1
           (set_updatedAt iso (set_error (JStr msg) (set_status (JStr "error") job))),
         [ECallSubmit], inl msg) in
      match b_submit b job.(payload) with
      | HNetFail msg => fail msg
      | HResp code text body =>
          if negb (http_ok code) then
            fail ("Backend returned " ++ show_Z code ++ ": " ++ text)
          else
          match body with
          | inl msg => fail msg
          | inr JNull => fail "Cannot read properties of null (reading 'job_id')"
          | inr data =>
              let bj := js_or (json_get "job_id" data) (JStr genId) in
              let job2 := set_updatedAt iso
                            (set_backendJobId (Some bj)
                               (set_status (JStr "pending") job)) in
              (updateJob jobs1 job2, [ECallSubmit; EStartPoll genId],
               inr (SubmitOk genId bj))
          end
      end
  end.

(** ** pollJobStatus *)

Definition is_terminal (j : JobRecord) : bool :=
  is_str j.(status) "done" || is_str j.(status) "error".

Definition is_active (j : JobRecord) : bool :=
  is_str j.(status) "running" || is_str j.(status) "pending".

(** [job.backendJobId || job.id]. *)
Definition backend_id (j : JobRecord) : json :=
  js_or j.(backendJobId) (JStr j.(id)).

(** Delay scheduled after a poll that got a status and left the job
    pending or running. *)
Definition next_delay (attempt : nat) : Q :=
  POLL_INTERVAL_MS * qpow BACKOFF_MULTIPLIER (Nat.min attempt 5).

(** Delay scheduled from the [catch] block: the value passed to
    [setTimeout] (see [timer_delay] for the wait it gives). *)
Definition catch_delay (attempt : nat) : Q :=
  POLL_INTERVAL_MS * qpow BACKOFF_MULTIPLIER attempt.

(** The wait, in whole milliseconds, of a timer set with
    [setTimeout(f, d)]: [d] is converted to a WebIDL [long] (truncated,
    then wrapped modulo 2^32 into the signed 32-bit range), and a negative
    result counts as 0 (HTML timer initialisation steps). *)
Definition timer_delay (d : Q) : Z :=
  let z := Z.quot (Qnum d) (Zpos (Qden d)) in
  let w := Z.modulo z (2 ^ 32)%Z in
  let s := if Z.leb (2 ^ 31)%Z w then (w - 2 ^ 32)%Z else w in
  Z.max 0 s.

Definition poll_outcome := (store * list effect * option (Q * nat))%type.

(** The [attempt >= POLL_MAX_ATTEMPTS] branch. *)
Definition poll_timeout (jobs : store) (jid : string) (iso : string) : store :=
  match getJobById jobs jid with
  | Some job =>
      if is_str job.(status) "pending" || is_str job.(status) "running" then
        updateJob jobs
          (set_updatedAt iso
             (set_error (JStr "Timeout: Job did not complete in time")
                (set_status (JStr "error") job)))
      else jobs
  | None => jobs
  end.

(** The first [await] of the [try] block: the job is read, and the poll
    stops when it is missing, done or error. *)
Definition poll_begin (jobs : store) (jid : string) : option JobRecord :=
  match getJobById jobs jid with
  | None => None
  | Some job => if is_terminal job then None else Some job
  end.

(** The rest of the [try] block, on the copy [job] read by [poll_begin]:
    the HTTP calls, then [updateJob] on the store [jobs] as it is when the
    responses have arrived, then the rescheduling; a rejected promise or a
    thrown [TypeError] goes to the [catch] block. *)
Definition poll_finish (b : backend) (jobs : store) (job : JobRecord)
    (attempt : nat) (iso : string) : poll_outcome :=
  let bid := backend_id job in
  let retry (eff : list effect) : poll_outcome :=
    (jobs, eff, Some (catch_delay attempt, S attempt)) in
  let commit (j : JobRecord) (eff : list effect) : poll_outcome :=
    (updateJob jobs j, eff,
     if is_active j then Some (next_delay attempt, S attempt) else None) in
  match b_status b bid with
  | HNetFail _ => retry [ECallStatus]
  | HResp code _ body =>
      if negb (http_ok code) then retry [ECallStatus] else
      match body with
      | inl _ => retry [ECallStatus]
      | inr JNull => retry [ECallStatus]
      | inr statusData =>
          let st := or_undef (json_get "status" statusData) in
          let job1 := set_updatedAt iso
                        (set_progress (json_get "progress" statusData)
                           (set_status st job)) in
          if is_str st "done" then
            match b_result b bid with
            | HNetFail _ => retry [ECallStatus; ECallResult]
            | HResp rcode _ rbody =>
                if http_ok rcode then
                  match rbody with
                  | inl _ => retry [ECallStatus; ECallResult]
                  | inr r => commit (set_result r job1) [ECallStatus; ECallResult]
                  end
                else commit job1 [ECallStatus; ECallResult]
            end
          else if is_str st "error" then
            commit (set_error (js_or (json_get "error" statusData)
                                 (JStr "Unknown error")) job1) [ECallStatus]
          else commit job1 [ECallStatus]
      end
  end.

(** [pollJobStatus(jobId, backendUrl, apiKey, attempt)], run with no other
    operation between its reads and its write. *)
Definition pollJobStatus (b : backend) (jobs : store) (jid : string)
    (attempt : nat) (iso : string) : poll_outcome :=
  if Nat.leb POLL_MAX_ATTEMPTS attempt then (poll_timeout jobs jid iso, [], None)
  else
    match poll_begin jobs jid with
    | None => (jobs, [], None)
    | Some job => poll_finish b jobs job attempt iso
    end.

(** A poll loop: each scheduled invocation runs when its timer fires;
    [fuel] bounds the number of invocations, and [bs a] is the backend as
    the invocation at attempt [a] finds it. *)
Fixpoint poll_loop (fuel : nat) (bs : nat -> backend) (jobs : store) (jid : string)
    (attempt : nat) (iso : string) : store * list effect :=
  match fuel with
  | O => (jobs, [])
  | S f =>
      let '(jobs', eff, next) := pollJobStatus (bs attempt) jobs jid attempt iso in
      match next with
      | None => (jobs', eff)
      | Some (_, attempt') =>
          let '(jobs'', eff') := poll_loop f bs jobs' jid attempt' iso in
          (jobs'', (eff ++ eff')%list)
      end
  end.

(** ** getJobStatus and cancelJob *)

Definition getJobStatus (jobs : store) (jid : string) : string + JobRecord :=
  match getJobById jobs jid with
  | None => inl "Job not found"
  | Some job => inr job
  end.

Definition cancelJob (jobs : store) (jid : string) (iso : string)
  : store * (string + unit) :=
  match getJobById jobs jid with
  | None => (jobs, inl "Job not found")
  | Some job =>
      (updateJob jobs
         (set_updatedAt iso
            (set_error (JStr "Cancelled by user") (set_status (JStr "error") job))),
       inr tt)
  end.

(** ** Spec-side reading of the store's write operation *)

(** Modelled from the spec's words, to be compared with [saveJob] and
    [updateJob]: "upsert(record) (insert if new id, else overwrite in place
    preserving collection position)". *)
Definition spec_upsert (jobs : store) (r : JobRecord) : store :=
  if existsb (fun j => String.eqb j.(id) r.(id)) jobs then
    map (fun j => if String.eqb j.(id) r.(id) then r else j) jobs
  else (jobs ++ [r])%list.

(** Backends whose status endpoint always answers a successful, parsable
    body with [status: 'running']. *)
Definition always_running (b : backend) : Prop :=
  forall x,
    match b_status b x with
    | HResp code _ (inr sd) =>
        http_ok code = true /\ json_get "status" sd = Some (JStr "running")
    | _ => False
    end.

(** The stored record of [jid] is pending or running. *)
Definition active_in (jobs : store) (jid : string) : Prop :=
  exists r, getJobById jobs jid = Some r /\ is_active r = true.

(** ** Sample inputs *)

Definition sample_payload : json :=
  JObj [("url", JStr "https://example.com"); ("raw_text", JStr "hello")].

(** A job as [submitJob] leaves it after the backend accepted it. *)
Definition sample_job : JobRecord :=
  mkJob "job-1" (Some (JStr "job-123")) (Some (JStr "https://example.com"))
    (JObj [("url", JStr "https://example.com"); ("raw_text", JStr "hello");
           ("job_id", JStr "job-1")])
    (JStr "pending") None "2026-01-01T00:00:00.000Z" "2026-01-01T00:00:00.000Z"
    0 JNull JNull.

Definition accepted_body : json :=
  JObj [("job_id", JStr "job-123"); ("status", JStr "accepted")].

Definition running_body : json :=
  JObj [("job_id", JStr "job-123"); ("status", JStr "running"); ("progress", JNum 40)].

Definition done_body : json :=
  JObj [("job_id", JStr "job-123"); ("status", JStr "done"); ("progress", JNum 100)].

(** [sample_job] once a poll has committed its result. *)
Definition done_job : JobRecord :=
  set_result (JObj [("material", JStr "aluminium"); ("co2_kg", JNum 100)])
    (set_status (JStr "done") sample_job).

(** [sample_job] with another status, under the same id. *)
Definition running_copy : JobRecord := set_status (JStr "running") sample_job.

(** The status endpoint always answers [running]. *)
Definition running_backend : backend :=
  mkBackend (fun _ => HResp 200 "OK" (inr accepted_body))
            (fun _ => HResp 200 "OK" (inr running_body))
            (fun _ => HResp 404 "Not Found" (inr JNull)).

(** The status endpoint answers [done] but the result endpoint fails. *)
Definition done_result_fails_backend : backend :=
  mkBackend (fun _ => HResp 200 "OK" (inr accepted_body))
            (fun _ => HResp 200 "OK" (inr done_body))
            (fun _ => HResp 500 "Internal Server Error" (inl "Unexpected token")).

(** The status endpoint answers [done] and the result endpoint the mock
    result. *)
Definition done_ok_backend : backend :=
  mkBackend (fun _ => HResp 200 "OK" (inr accepted_body))
            (fun _ => HResp 200 "OK" (inr done_body))
            (fun _ => HResp 200 "OK" (inr (mock_result 0))).

(** Every request fails at the network level. *)
Definition offline_backend : backend :=
  mkBackend (fun _ => HNetFail "Failed to fetch")
            (fun _ => HNetFail "Failed to fetch")
            (fun _ => HNetFail "Failed to fetch").

(** Per attempt: the status endpoint answers [running] with a progress
    that rises by one at every attempt. *)
Definition progress_backend (a : nat) : backend :=
  mkBackend (fun _ => HResp 200 "OK" (inr accepted_body))
            (fun _ => HResp 200 "OK"
                        (inr (JObj [("job_id", JStr "job-123"); ("status", JStr "running");
                                    ("progress", JNum (inject_Z (Z.of_nat a)))])))
            (fun _ => HResp 404 "Not Found" (inr JNull)).

(** Per attempt: network failures at even attempts, [running] at odd
    ones. *)
Definition flaky_backend (a : nat) : backend :=
  if Nat.even a then offline_backend else running_backend.

(** ** Jobs page (jobs.js) *)

(** [deleteJob]: [jobs.filter(j => j.id !== jobId)] written back. *)
Definition deleteJob (jobs : store) (jid : string) : store :=
  filter (fun j => negb (String.eqb j.(id) jid)) jobs.

(** [clearAllJobs]: [chrome.storage.local.set({ jobs: [] })]. *)
Definition clearAllJobs (jobs : store) : store := [].

(** [formatDate], with [diff = now - date] in milliseconds (both dates
    valid) and [locale] the text of
    [date.toLocaleDateString() + ' ' + date.toLocaleTimeString()]. *)
Definition formatDate (diff : Z) (locale : string) : string :=
  if Z.ltb diff 60000 then "Just now"
  else if Z.ltb diff 3600000 then show_Z (diff / 60000) ++ "m ago"
  else if Z.ltb diff 86400000 then show_Z (diff / 3600000) ++ "h ago"
  else locale.

(** ** Popup status polling (popup.js pollJobStatus) *)

(** The [showStatus] calls of the popup's [poll]. *)
Inductive popup_status : Type :=
| PDone (res : option json)
| PFailed (err : json)
| PProcessing (st : json)
| PTimeout
| PCheckError (msg : json).

(** [poll()] of the popup, [attempts] counted before the call; [resp k] is
    what [chrome.runtime.sendMessage({action: 'getJobStatus'})] settles to
    at the [k]-th attempt ([inl msg] when it rejects).  Returns the status
    messages shown, in order, and the final [attempts]. *)
Fixpoint popup_poll (fuel : nat) (attempts : nat) (resp : nat -> string + json)
  : list popup_status * nat :=
  match fuel with
  | O => ([], attempts)
  | S f =>
      let attempts' := S attempts in
      match resp attempts' with
      | inl m => ([PCheckError (JStr m)], attempts')
      | inr r =>
          if truthy (json_get "success" r) then
            let st := or_undef (json_get "status" r) in
            if is_str st "done" then ([PDone (json_get "result" r)], attempts')
            else if is_str st "error" then
              ([PFailed (js_or (json_get "error" r) (JStr "Unknown error"))], attempts')
            else if is_str st "running" || is_str st "pending" then
              if Nat.ltb attempts' 20 then
                let '(l, n) := popup_poll f attempts' resp in (PProcessing st :: l, n)
              else ([PProcessing st; PTimeout], attempts')
            else ([], attempts')
          else
            ([PCheckError (js_or (json_get "error" r) (JStr "Failed to check status"))],
             attempts')
      end
  end.

(** ** Reachable stores *)

(** [err_ok r]: the record carries a non-null [error] exactly when its
    status is ['error']. *)
Definition err_ok (r : JobRecord) : Prop :=
  if is_str r.(status) "error" then r.(error) <> JNull else r.(error) = JNull.

(** Stores reachable from an empty one by the operations of the service
    worker and the jobs page, with every submission under an id not yet
    stored.  [reach_inflight] is the write-back of a poll whose copy of the
    record was read on an earlier store [s0] while other operations ran. *)
Inductive reachable : store -> Prop :=
| reach_empty : reachable []
| reach_submit s b p mock bu ak gid now iso :
    reachable s -> getJobById s gid = None ->
    reachable (fst (fst (submitJob b s p mock bu ak gid now iso)))
| reach_poll s b jid a iso :
    reachable s -> reachable (fst (fst (pollJobStatus b s jid a iso)))
| reach_inflight s0 s b jid job a iso :
    reachable s0 -> poll_begin s0 jid = Some job -> reachable s ->
    reachable (fst (fst (poll_finish b s job a iso)))
| reach_cancel s jid iso :
    reachable s -> reachable (fst (cancelJob s jid iso))
| reach_delete s jid :
    reachable s -> reachable (deleteJob s jid)
| reach_clear s :
    reachable s -> reachable (clearAllJobs s).

(** Backends whose status answers never settle the job: a network
    failure, a non-2xx code, an unparsable or null body, or a status of
    [running] or [pending]. *)
Definition unsettled (b : backend) : Prop :=
  forall x,
    match b_status b x with
    | HNetFail _ => True
    | HResp _ _ (inl _) => True
    | HResp code _ (inr sd) =>
        http_ok code = false \/ sd = JNull
        \/ json_get "status" sd = Some (JStr "running")
        \/ json_get "status" sd = Some (JStr "pending")
    end.

(** * Store lemmas *)

Lemma updateJob_cons (j : JobRecord) (rest : store) (r : JobRecord) :
  updateJob (j :: rest) r =
  if String.eqb j.(id) r.(id) then r :: rest else j :: updateJob rest r.
Proof.
  unfold updateJob; simpl.
  destruct (String.eqb j.(id) r.(id)); [reflexivity|].
  destruct (findIndex rest r.(id)); reflexivity.
Qed.

Lemma getJobById_cons (j : JobRecord) (rest : store) (k : string) :
  getJobById (j :: rest) k =
  if String.eqb j.(id) k then Some j else getJobById rest k.
Proof. reflexivity. Qed.

Lemma findIndex_getJobById_none (jobs : store) (k : string) :
  findIndex jobs k = None <-> getJobById jobs k = None.
Proof.
  induction jobs as [|j rest IH]; [simpl; tauto|].
  cbn [findIndex]. rewrite getJobById_cons.
  destruct (String.eqb j.(id) k); [split; discriminate|].
  rewrite <- IH. destruct (findIndex rest k); simpl; split; congruence.
Qed.

Lemma updateJob_absent (jobs : store) (r : JobRecord) :
  getJobById jobs r.(id) = None -> updateJob jobs r = jobs.
Proof.
  intro H. unfold updateJob.
  apply findIndex_getJobById_none in H. rewrite H. reflexivity.
Qed.

Lemma getJobById_updateJob_same (jobs : store) (r : JobRecord) :
  getJobById jobs r.(id) <> None -> getJobById (updateJob jobs r) r.(id) = Some r.
Proof.
  induction jobs as [|j rest IH]; intro H; [contradiction|].
  rewrite updateJob_cons. rewrite getJobById_cons in H.
  destruct (String.eqb j.(id) r.(id)) eqn:E.
  - rewrite getJobById_cons, String.eqb_refl. reflexivity.
  - rewrite getJobById_cons, E. apply IH, H.
Qed.

Lemma getJobById_updateJob_other (jobs : store) (r : JobRecord) (k : string) :
  r.(id) <> k -> getJobById (updateJob jobs r) k = getJobById jobs k.
Proof.
  intro Hne. induction jobs as [|j rest IH]; [reflexivity|].
  rewrite updateJob_cons.
  destruct (String.eqb j.(id) r.(id)) eqn:E.
  - apply String.eqb_eq in E.
    rewrite !getJobById_cons.
    assert (String.eqb r.(id) k = false) as -> by (apply String.eqb_neq; exact Hne).
    assert (String.eqb j.(id) k = false) as -> by (apply String.eqb_neq; congruence).
    reflexivity.
  - rewrite !getJobById_cons. destruct (String.eqb j.(id) k); [reflexivity | exact IH].
Qed.

Lemma getJobById_id (jobs : store) (k : string) (r : JobRecord) :
  getJobById jobs k = Some r -> r.(id) = k.
Proof.
  induction jobs as [|j rest IH]; [discriminate|].
  rewrite getJobById_cons. destruct (String.eqb j.(id) k) eqn:E.
  - intro H; injection H as <-. apply String.eqb_eq, E.
  - exact IH.
Qed.

(** Writing back a modified copy of the record found under [k]. *)
Lemma getJobById_updateJob_found (jobs : store) (k : string) (r r' : JobRecord) :
  getJobById jobs k = Some r -> r'.(id) = k ->
  getJobById (updateJob jobs r') k = Some r'.
Proof.
  intros H Hid. subst k. apply getJobById_updateJob_same. congruence.
Qed.

(** * Poll-loop lemmas *)

Local Open Scope nat_scope.

Lemma is_active_not_terminal (r : JobRecord) :
  is_active r = true -> is_terminal r = false.
Proof.
  unfold is_active, is_terminal, is_str.
  destruct r.(status); try discriminate.
  intro H. apply orb_true_iff in H as [H|H]; apply String.eqb_eq in H; subst; reflexivity.
Qed.

Lemma poll_begin_active (jobs : store) (jid : string) (r : JobRecord) :
  getJobById jobs jid = Some r -> is_active r = true -> poll_begin jobs jid = Some r.
Proof.
  intros H Ha. unfold poll_begin. rewrite H, is_active_not_terminal by exact Ha.
  reflexivity.
Qed.

(** One invocation below the attempt ceiling against an always-running
    backend: one status call, the record stays running, and the next
    attempt is scheduled. *)
Lemma poll_step_running (b : backend) (jobs : store) (jid : string)
    (a : nat) (iso : string) :
  always_running b -> a < POLL_MAX_ATTEMPTS -> active_in jobs jid ->
  exists jobs',
    pollJobStatus b jobs jid a iso = (jobs', [ECallStatus], Some (next_delay a, S a))
    /\ active_in jobs' jid.
Proof.
  intros Hrun Ha [r [Hr Hact]].
  unfold pollJobStatus.
  assert (Nat.leb POLL_MAX_ATTEMPTS a = false) as -> by (apply Nat.leb_gt; exact Ha).
  rewrite (poll_begin_active _ _ _ Hr Hact).
  unfold poll_finish.
  specialize (Hrun (backend_id r)).
  destruct (b_status b (backend_id r)) as [code t [m|sd]|m]; try contradiction.
  destruct Hrun as [Hok Hst]. rewrite Hok. cbn [negb].
  destruct sd as [| | | | |fs]; try (simpl in Hst; discriminate).
  rewrite Hst. cbn.
  eexists. split; [reflexivity|].
  eexists. split.
  - apply (getJobById_updateJob_found _ _ r); [exact Hr|].
    apply (getJobById_id _ _ _ Hr).
  - reflexivity.
Qed.

(** The invocation at the attempt ceiling turns a pending or running
    record into the timeout error and schedules nothing. *)
Lemma poll_step_ceiling (b : backend) (jobs : store) (jid : string)
    (a : nat) (iso : string) :
  POLL_MAX_ATTEMPTS <= a -> active_in jobs jid ->
  exists r,
    pollJobStatus b jobs jid a iso =
      (updateJob jobs r, [], None)
    /\ getJobById (updateJob jobs r) jid = Some r
    /\ r.(status) = JStr "error"
    /\ r.(error) = JStr "Timeout: Job did not complete in time".
Proof.
  intros Ha [r [Hr Hact]].
  unfold pollJobStatus.
  assert (Nat.leb POLL_MAX_ATTEMPTS a = true) as -> by (apply Nat.leb_le; exact Ha).
  unfold poll_timeout. rewrite Hr.
  unfold is_active in Hact. rewrite orb_comm in Hact. rewrite Hact.
  eexists. split; [reflexivity|]. split; [|split; reflexivity].
  apply (getJobById_updateJob_found _ _ r); [exact Hr|].
  apply (getJobById_id _ _ _ Hr).
Qed.

Lemma poll_loop_running (bs : nat -> backend) (jid iso : string) :
  (forall a, always_running (bs a)) ->
  forall k a jobs, a <= POLL_MAX_ATTEMPTS -> active_in jobs jid ->
    (k <= POLL_MAX_ATTEMPTS - a ->
       snd (poll_loop k bs jobs jid a iso) = repeat ECallStatus k
       /\ active_in (fst (poll_loop k bs jobs jid a iso)) jid)
    /\ (POLL_MAX_ATTEMPTS - a < k ->
       snd (poll_loop k bs jobs jid a iso) = repeat ECallStatus (POLL_MAX_ATTEMPTS - a)
       /\ exists r, getJobById (fst (poll_loop k bs jobs jid a iso)) jid = Some r
            /\ r.(status) = JStr "error"
            /\ r.(error) = JStr "Timeout: Job did not complete in time").
Proof.
  intros Hrun k. induction k as [|k IH]; intros a jobs Ha Hact.
  - split; intro Hk; [split; [reflexivity | exact Hact] | lia].
  - destruct (Nat.lt_ge_cases a POLL_MAX_ATTEMPTS) as [Hlt|Hge].
    + destruct (poll_step_running (bs a) jobs jid a iso (Hrun a) Hlt Hact)
        as [jobs' [Hs Hact']].
      cbn [poll_loop]. rewrite Hs.
      destruct (IH (S a) jobs' ltac:(lia) Hact') as [IH1 IH2].
      destruct (poll_loop k bs jobs' jid (S a) iso) as [jobs'' eff'] eqn:El.
      cbn [fst snd] in *.
      split; intro Hk.
      * destruct (IH1 ltac:(lia)) as [He Ha'']. rewrite He. split; [reflexivity | exact Ha''].
      * destruct (IH2 ltac:(lia)) as [He Hr]. rewrite He.
        split; [|exact Hr].
        replace (POLL_MAX_ATTEMPTS - a) with (S (POLL_MAX_ATTEMPTS - S a)) by lia.
        reflexivity.
    + destruct (poll_step_ceiling (bs a) jobs jid a iso Hge Hact) as [r [Hs [Hg [H1 H2]]]].
      cbn [poll_loop]. rewrite Hs. cbn [fst snd].
      split; intro Hk; [lia|].
      replace (POLL_MAX_ATTEMPTS - a) with 0 by lia.
      split; [reflexivity|]. exists r. auto.
Qed.

(** * Further store lemmas *)

Lemma getJobById_saveJob_found (jobs : store) (x : JobRecord) (k : string) (r : JobRecord) :
  getJobById jobs k = Some r -> getJobById (saveJob jobs x) k = Some r.
Proof.
  unfold saveJob. induction jobs as [|j rest IH]; [discriminate|].
  cbn [app]. rewrite !getJobById_cons.
  destruct (String.eqb j.(id) k); [tauto | exact IH].
Qed.

Lemma getJobById_saveJob_new (jobs : store) (r : JobRecord) :
  getJobById jobs r.(id) = None -> getJobById (saveJob jobs r) r.(id) = Some r.
Proof.
  unfold saveJob. induction jobs as [|j rest IH]; intro H.
  - cbn. rewrite String.eqb_refl. reflexivity.
  - cbn [app]. rewrite getJobById_cons in *.
    destruct (String.eqb j.(id) r.(id)); [discriminate | apply IH, H].
Qed.

Lemma updateJob_at_index (jobs : store) (r : JobRecord) (i : nat) :
  findIndex jobs r.(id) = Some i ->
  updateJob jobs r = (firstn i jobs ++ r :: skipn (S i) jobs)%list.
Proof.
  revert i. induction jobs as [|j rest IH]; intros i H; [discriminate|].
  rewrite updateJob_cons. cbn [findIndex] in H.
  destruct (String.eqb j.(id) r.(id)).
  - injection H as <-. reflexivity.
  - destruct (findIndex rest r.(id)) as [i'|] eqn:E; [|discriminate].
    injection H as <-. cbn. f_equal. apply IH. reflexivity.
Qed.

Lemma findIndex_some_found (jobs : store) (k : string) (i : nat) :
  findIndex jobs k = Some i -> getJobById jobs k <> None.
Proof.
  intros H Hn. apply findIndex_getJobById_none in Hn. congruence.
Qed.

(** * Poll and cancel lemmas *)

(** A poll that finds the record done or error changes nothing. *)
Lemma pollJobStatus_terminal (b : backend) (jobs : store) (jid : string)
    (r : JobRecord) (a : nat) (iso : string) :
  getJobById jobs jid = Some r -> is_terminal r = true ->
  pollJobStatus b jobs jid a iso = (jobs, [], None).
Proof.
  intros Hr Ht. unfold pollJobStatus.
  destruct (Nat.leb POLL_MAX_ATTEMPTS a).
  - unfold poll_timeout. rewrite Hr.
    unfold is_terminal in Ht. unfold is_str in *.
    destruct r.(status); try reflexivity.
    apply orb_true_iff in Ht as [Ht|Ht]; apply String.eqb_eq in Ht; subst; reflexivity.
  - unfold poll_begin. rewrite Hr, Ht. reflexivity.
Qed.

Lemma poll_loop_terminal (n : nat) (bs : nat -> backend) (jobs : store) (jid : string)
    (r : JobRecord) (a : nat) (iso : string) :
  getJobById jobs jid = Some r -> is_terminal r = true ->
  poll_loop n bs jobs jid a iso = (jobs, []).
Proof.
  intros Hr Ht. destruct n as [|n]; [reflexivity|].
  cbn [poll_loop]. rewrite (pollJobStatus_terminal (bs a) jobs jid r a iso Hr Ht).
  reflexivity.
Qed.

Definition cancelled (r : JobRecord) (iso : string) : JobRecord :=
  set_updatedAt iso (set_error (JStr "Cancelled by user") (set_status (JStr "error") r)).

Lemma cancelJob_found (jobs : store) (jid iso : string) (r : JobRecord) :
  getJobById jobs jid = Some r ->
  cancelJob jobs jid iso = (updateJob jobs (cancelled r iso), inr tt)
  /\ getJobById (updateJob jobs (cancelled r iso)) jid = Some (cancelled r iso).
Proof.
  intro Hr. unfold cancelJob. rewrite Hr. split; [reflexivity|].
  apply (getJobById_updateJob_found _ _ r); [exact Hr|].
  apply (getJobById_id _ _ _ Hr).
Qed.

Ltac split_matches :=
  repeat match goal with
         | |- context [match ?x with _ => _ end] => destruct x
         end.

(** [poll_finish] writes, if anything, a copy of the record it polls. *)
Lemma poll_finish_store (b : backend) (jobs : store) (job : JobRecord)
    (a : nat) (iso : string) :
  fst (fst (poll_finish b jobs job a iso)) = jobs
  \/ exists j', j'.(id) = job.(id)
       /\ fst (fst (poll_finish b jobs job a iso)) = updateJob jobs j'.
Proof.
  unfold poll_finish. cbv zeta.
  split_matches; cbn [fst];
    solve [left; reflexivity | right; eexists; split; [|reflexivity]; reflexivity].
Qed.

(** [submitJob] writes, if anything, the new record and a copy of it. *)
Lemma submitJob_store (b : backend) (jobs : store) (p : json) (mock : bool)
    (bu ak : option string) (gid : string) (now : Z) (iso : string) :
  fst (fst (submitJob b jobs p mock bu ak gid now iso)) = jobs
  \/ exists j j', j.(id) = gid /\ j'.(id) = gid
       /\ fst (fst (submitJob b jobs p mock bu ak gid now iso))
          = updateJob (saveJob jobs j) j'.
Proof.
  unfold submitJob. cbv zeta.
  split_matches; cbn [fst];
    solve [left; reflexivity
          | right; do 2 eexists; split; [|split; [|reflexivity]]; reflexivity].
Qed.

Ltac destruct_matches_eqn :=
  repeat match goal with
         | |- context [match ?x with _ => _ end] => destruct x eqn:?
         end.

Lemma updateJob_updateJob_same (s0 : store) (c r : JobRecord) :
  c.(id) = r.(id) -> updateJob (updateJob s0 c) r = updateJob s0 r.
Proof.
  intro H. induction s0 as [|j rest IH]; [reflexivity|].
  rewrite (updateJob_cons j rest c).
  destruct (String.eqb j.(id) c.(id)) eqn:E1.
  - rewrite !updateJob_cons. rewrite H, String.eqb_refl.
    rewrite <- H, E1. reflexivity.
  - rewrite !updateJob_cons. rewrite <- H, E1. f_equal. exact IH.
Qed.

(** * Claims *)

(** ** C1 *)

(** Claim C1 (code_bug): when a poll gets status [done] but the result
    request answers a non-2xx status, [pollJobStatus] has already set
    [job.status = 'done'] and [updateJob] persists the record as done with
    its result left as it was (null for a job that was never done): a done
    record without a fetched result is committed.  Shown for every pending
    or running record whose result is null. *)
Theorem poll_done_without_result_committed (b : backend) (jobs : store)
    (jid : string) (r : JobRecord) (a : nat) (iso : string)
    (code rcode : Z) (text rtext : string) (sd : json) (rbody : string + json) :
  getJobById jobs jid = Some r -> is_active r = true -> r.(result) = JNull ->
  (a < POLL_MAX_ATTEMPTS)%nat ->
  b_status b (backend_id r) = HResp code text (inr sd) -> http_ok code = true ->
  json_get "status" sd = Some (JStr "done") ->
  b_result b (backend_id r) = HResp rcode rtext rbody -> http_ok rcode = false ->
  exists r', getJobById (fst (fst (pollJobStatus b jobs jid a iso))) jid = Some r'
    /\ r'.(status) = JStr "done" /\ r'.(result) = JNull.
Proof.
  intros Hr Hact Hnull Ha Hs Hok Hst Hres Hrok.
  unfold pollJobStatus.
  assert (Nat.leb POLL_MAX_ATTEMPTS a = false) as -> by (apply Nat.leb_gt; exact Ha).
  rewrite (poll_begin_active _ _ _ Hr Hact).
  unfold poll_finish. rewrite Hs, Hok. cbn [negb].
  destruct sd as [| | | | |fs]; try (simpl in Hst; discriminate).
  rewrite Hst. cbn zeta. cbn [or_undef is_str].
  rewrite String.eqb_refl, Hres, Hrok. cbn [fst].
  eexists. split.
  - apply (getJobById_updateJob_found _ _ r); [exact Hr|].
    apply (getJobById_id _ _ _ Hr).
  - split; [reflexivity | exact Hnull].
Qed.

Lemma poll_done_without_result_committed_witness :
  exists r', getJobById (fst (fst (pollJobStatus done_result_fails_backend
                [sample_job] "job-1" 0 "t1"))) "job-1" = Some r'
    /\ r'.(status) = JStr "done" /\ r'.(result) = JNull.
Proof.
  apply (poll_done_without_result_committed done_result_fails_backend [sample_job]
           "job-1" sample_job 0 "t1" 200 500 "OK" "Internal Server Error"
           done_body (inl "Unexpected token"));
    first [reflexivity | unfold POLL_MAX_ATTEMPTS; lia].
Defined.

(** ** C2 *)

(** Claim C2 (code_bug): the invariant [status = done -> result <> null]
    fails on a reachable store: from an empty store, a non-mock submission
    the backend accepts, followed by one poll whose status is [done] and
    whose result request fails with HTTP 500, stores a record with status
    done, result null and error null (the same defect as C1). *)
Theorem submit_then_poll_reaches_done_with_null_result :
  let b := done_result_fails_backend in
  let '(jobs1, eff1, reply) :=
    submitJob b [] sample_payload false (Some "https://backend.example")
      (Some "key") "job-1" 0 "t0" in
  let '(jobs2, _, _) := pollJobStatus b jobs1 "job-1" 0 "t1" in
  eff1 = [ECallSubmit; EStartPoll "job-1"]
  /\ reply = inr (SubmitOk "job-1" (JStr "job-123"))
  /\ exists r, getJobById jobs2 "job-1" = Some r
       /\ r.(status) = JStr "done" /\ r.(result) = JNull /\ r.(error) = JNull.
Proof.
  vm_compute. split; [reflexivity|]. split; [reflexivity|].
  eexists. split; [reflexivity|]. repeat split.
Qed.

(** ** C5 *)

(** Claim C5: when every status answer of a poll loop is a successful
    [running] (the answers may differ from one attempt to the next, e.g.
    in their progress), the loop started at attempt 0 on a pending or
    running record makes exactly one status request per invocation and
    keeps the record pending or running through the first
    [POLL_MAX_ATTEMPTS] (60) invocations; the next invocation sets status
    [error] with the timeout message, makes no request and schedules
    nothing, so the loop ends after exactly 60 status requests, however
    many more timer firings are allowed. *)
Theorem poll_running_times_out_after_max_attempts (bs : nat -> backend) (jobs : store)
    (jid iso : string) :
  (forall a, always_running (bs a)) -> active_in jobs jid ->
  (forall n, (n <= POLL_MAX_ATTEMPTS)%nat ->
     snd (poll_loop n bs jobs jid 0 iso) = repeat ECallStatus n
     /\ active_in (fst (poll_loop n bs jobs jid 0 iso)) jid)
  /\ (forall n, (POLL_MAX_ATTEMPTS < n)%nat ->
     snd (poll_loop n bs jobs jid 0 iso) = repeat ECallStatus POLL_MAX_ATTEMPTS
     /\ exists r, getJobById (fst (poll_loop n bs jobs jid 0 iso)) jid = Some r
          /\ r.(status) = JStr "error"
          /\ r.(error) = JStr "Timeout: Job did not complete in time").
Proof.
  intros Hrun Hact. split; intros n Hn.
  - apply (poll_loop_running bs jid iso Hrun n 0 jobs); [lia | exact Hact | lia].
  - rewrite <- (Nat.sub_0_r POLL_MAX_ATTEMPTS).
    apply (poll_loop_running bs jid iso Hrun n 0 jobs); [lia | exact Hact | lia].
Qed.

Lemma poll_running_times_out_after_max_attempts_witness :
  (forall a, always_running (progress_backend a)) /\ active_in [sample_job] "job-1"
  /\ snd (poll_loop 61 progress_backend [sample_job] "job-1" 0 "t")
     = repeat ECallStatus 60.
Proof.
  assert (Hrun : forall a, always_running (progress_backend a))
    by (intros a x; split; reflexivity).
  assert (Hact : active_in [sample_job] "job-1")
    by (exists sample_job; split; reflexivity).
  split; [exact Hrun|]. split; [exact Hact|].
  apply (proj2 (poll_running_times_out_after_max_attempts progress_backend
                  [sample_job] "job-1" "t" Hrun Hact) 61).
  cbv. lia.
Defined.

(** ** C6 *)

(** Claim C6 (code_bug): the [catch] block of [pollJobStatus] schedules
    the next attempt after [POLL_INTERVAL_MS * BACKOFF_MULTIPLIER^attempt]
    without the [Math.min(attempt, 5)] cap of the success path.  At attempt
    6 with the status request failing at the network level, the delay is
    22781.25 ms, not the capped 15187.5 ms that the success path schedules
    at the same attempt. *)
Theorem poll_catch_delay_uncapped :
  pollJobStatus offline_backend [sample_job] "job-1" 6 "t"
    = ([sample_job], [ECallStatus], Some (catch_delay 6, 7%nat))
  /\ catch_delay 6 == 91125 # 4
  /\ ~ (catch_delay 6 == POLL_INTERVAL_MS * qpow BACKOFF_MULTIPLIER (Nat.min 6 5))
  /\ snd (pollJobStatus running_backend [sample_job] "job-1" 6 "t")
     = Some (next_delay 6, 7%nat)
  /\ next_delay 6 == 30375 # 2.
Proof.
  split; [reflexivity|].
  split; [reflexivity|].
  split; [vm_compute; discriminate|].
  split; reflexivity.
Qed.

(** ** C3 *)

(** Claim C3, counterexample: [cancelJob] on a record that is already
    [done] rewrites its status to [error]. *)
Lemma cancel_changes_done_record :
  is_terminal done_job = true
  /\ exists r, getJobById (fst (cancelJob [done_job] "job-1" "t1")) "job-1" = Some r
       /\ r.(status) = JStr "error" /\ r.(status) <> done_job.(status).
Proof.
  split; [reflexivity|]. eexists. split; [reflexivity|].
  split; [reflexivity | discriminate].
Qed.

(** Claim C3, as amended: once the stored record of [jid] is [done] or
    [error], every poll invocation (the timeout branch included) and every
    poll loop leaves the store as it is and schedules nothing,
    [getJobStatus] only reads it, and a submission under a fresh id leaves
    it unchanged; [cancelJob] still rewrites it to [error] with
    "Cancelled by user", whatever its status. *)
Theorem terminal_record_changed_only_by_cancel (jobs : store) (jid : string)
    (r : JobRecord) :
  getJobById jobs jid = Some r -> is_terminal r = true ->
  (forall b a iso, pollJobStatus b jobs jid a iso = (jobs, [], None))
  /\ (forall n bs a iso, poll_loop n bs jobs jid a iso = (jobs, []))
  /\ getJobStatus jobs jid = inr r
  /\ (forall b p mock bu ak gid now iso, getJobById jobs gid = None ->
        getJobById (fst (fst (submitJob b jobs p mock bu ak gid now iso))) jid
        = Some r)
  /\ (forall iso, getJobById (fst (cancelJob jobs jid iso)) jid
                  = Some (cancelled r iso)).
Proof.
  intros Hr Ht.
  split; [intros; apply (pollJobStatus_terminal _ _ _ r); assumption|].
  split; [intros; apply (poll_loop_terminal _ _ _ _ r); assumption|].
  split; [unfold getJobStatus; rewrite Hr; reflexivity|].
  split.
  - intros b p mock bu ak gid now iso Hg.
    destruct (submitJob_store b jobs p mock bu ak gid now iso)
      as [-> | [j [j' [Hj [Hj' ->]]]]]; [exact Hr|].
    assert (gid <> jid) by congruence.
    rewrite getJobById_updateJob_other by congruence.
    apply getJobById_saveJob_found, Hr.
  - intro iso. rewrite (proj1 (cancelJob_found jobs jid iso r Hr)).
    apply (cancelJob_found jobs jid iso r Hr).
Qed.

Lemma terminal_record_changed_only_by_cancel_witness :
  pollJobStatus running_backend [done_job] "job-1" 3 "t" = ([done_job], [], None).
Proof.
  apply (proj1 (terminal_record_changed_only_by_cancel [done_job] "job-1" done_job
                  eq_refl eq_refl)).
Defined.

(** ** C4 *)

(** Claim C4: [cancelJob] on a missing id answers "Job not found" and
    leaves the store as it is; on a pending or running record it succeeds
    and stores it with status [error] and error "Cancelled by user"; any
    poll loop run on the store after that (any backends, any attempt, any
    number of invocations) leaves the store unchanged. *)
Theorem cancel_sets_error_and_stops_polls (jobs : store) (jid iso : string) :
  (getJobById jobs jid = None -> cancelJob jobs jid iso = (jobs, inl "Job not found"))
  /\ (forall r, getJobById jobs jid = Some r -> is_active r = true ->
        snd (cancelJob jobs jid iso) = inr tt
        /\ exists r', getJobById (fst (cancelJob jobs jid iso)) jid = Some r'
             /\ r'.(status) = JStr "error"
             /\ r'.(error) = JStr "Cancelled by user"
             /\ (forall n bs a iso',
                   poll_loop n bs (fst (cancelJob jobs jid iso)) jid a iso'
                   = (fst (cancelJob jobs jid iso), []))).
Proof.
  split.
  - intro H. unfold cancelJob. rewrite H. reflexivity.
  - intros r Hr _.
    destruct (cancelJob_found jobs jid iso r Hr) as [Hc Hg].
    rewrite Hc. cbn [fst snd]. split; [reflexivity|].
    exists (cancelled r iso). split; [exact Hg|].
    split; [reflexivity|]. split; [reflexivity|].
    intros n bs a iso'. apply (poll_loop_terminal _ _ _ _ (cancelled r iso)); [exact Hg|].
    reflexivity.
Qed.

Lemma cancel_sets_error_and_stops_polls_witness :
  cancelJob [] "job-1" "t" = ([], inl "Job not found")
  /\ snd (cancelJob [sample_job] "job-1" "t") = inr tt.
Proof.
  split.
  - apply (proj1 (cancel_sets_error_and_stops_polls [] "job-1" "t")). reflexivity.
  - apply (proj2 (cancel_sets_error_and_stops_polls [sample_job] "job-1" "t") sample_job);
      reflexivity.
Defined.

(** ** C7 *)

(** Claim C7, counterexample: neither write operation of the store is an
    upsert.  [saveJob] of a record whose id is present appends a second
    record instead of overwriting, and [getJobById] then still returns the
    old one; [updateJob] of a record whose id is absent inserts nothing. *)
Lemma store_has_no_upsert :
  saveJob [sample_job] running_copy <> spec_upsert [sample_job] running_copy
  /\ getJobById (saveJob [sample_job] running_copy) "job-1" = Some sample_job
  /\ updateJob [] sample_job <> spec_upsert [] sample_job.
Proof.
  split; [|split; [reflexivity|]].
  - intro H. apply (f_equal (@length _)) in H. discriminate H.
  - intro H. apply (f_equal (@length _)) in H. discriminate H.
Qed.

(** Claim C7, as amended: [saveJob] appends the record at the end of the
    collection whatever its id; [updateJob] overwrites the first record with
    the same id at its index, the rest of the collection unchanged, and
    writes nothing when the id is absent.  A record written by [saveJob]
    under an absent id, or by [updateJob] under a present id, is what
    [getJobById] returns for that id. *)
Theorem saveJob_updateJob_roundtrip (jobs : store) (r : JobRecord) :
  saveJob jobs r = (jobs ++ [r])%list
  /\ (getJobById jobs r.(id) = None ->
        getJobById (saveJob jobs r) r.(id) = Some r /\ updateJob jobs r = jobs)
  /\ (forall i, findIndex jobs r.(id) = Some i ->
        updateJob jobs r = (firstn i jobs ++ r :: skipn (S i) jobs)%list
        /\ getJobById (updateJob jobs r) r.(id) = Some r).
Proof.
  split; [reflexivity|]. split.
  - intro H. split; [apply getJobById_saveJob_new, H | apply updateJob_absent, H].
  - intros i Hi. split; [apply updateJob_at_index, Hi|].
    apply getJobById_updateJob_same. apply (findIndex_some_found _ _ i Hi).
Qed.

Lemma saveJob_updateJob_roundtrip_witness :
  getJobById (saveJob [] sample_job) "job-1" = Some sample_job
  /\ updateJob [sample_job] running_copy = [running_copy].
Proof.
  split.
  - apply (proj1 (proj2 (saveJob_updateJob_roundtrip [] sample_job)) eq_refl).
  - apply (proj2 (proj2 (saveJob_updateJob_roundtrip [sample_job] running_copy)) 0%nat
             eq_refl).
Defined.

(** ** C8 *)

(** Claim C8: [submitJob] in mock mode leaves the store as it is, makes no
    HTTP request and starts no poll loop, and answers the result of
    [getMockResponse] under the generated id, whose [circularity_score],
    [co2_kg] and [recycled_percent] are 67, 123.45 and 30. *)
Theorem submit_mock_mode_is_local (b : backend) (jobs : store) (p : json)
    (bu ak : option string) (gid : string) (now : Z) (iso : string) :
  submitJob b jobs p true bu ak gid now iso
    = (jobs, [], inr (SubmitMock gid (mock_result now)))
  /\ json_get "circularity_score" (mock_result now) = Some (JNum 67)
  /\ json_get "co2_kg" (mock_result now) = Some (JNum (12345 # 100))
  /\ json_get "recycled_percent" (mock_result now) = Some (JNum 30).
Proof.
  split; [reflexivity|]. split; [reflexivity|]. split; reflexivity.
Qed.

(** ** C9 *)

(** Claim C9, counterexample: the poll reads the pending [sample_job],
    the user cancels while the status request is in flight, and the
    [running] answer then writes the poll's copy back over the cancelled
    record and schedules the next attempt. *)
Lemma inflight_poll_resurrects_cancelled_job :
  poll_begin [sample_job] "job-1" = Some sample_job
  /\ exists r,
       getJobById (fst (cancelJob [sample_job] "job-1" "t1")) "job-1" = Some r
       /\ r.(status) = JStr "error"
  /\ exists r',
       getJobById (fst (fst (poll_finish running_backend
                     (fst (cancelJob [sample_job] "job-1" "t1")) sample_job 0 "t2")))
         "job-1" = Some r'
       /\ r'.(status) = JStr "running" /\ r'.(error) = JNull
       /\ snd (poll_finish running_backend
                (fst (cancelJob [sample_job] "job-1" "t1")) sample_job 0 "t2")
          = Some (next_delay 0, 1%nat).
Proof.
  split; [reflexivity|]. eexists. split; [reflexivity|]. split; [reflexivity|].
  eexists. split; [reflexivity|]. repeat split.
Qed.

(** Claim C9, as amended: a poll's response that arrives after a
    cancellation is not discarded.  For a poll that read a pending or
    running record before the cancellation, handling the response sends
    the same requests and schedules the same next call (if any) as without
    the cancellation.  Whether it writes depends only on the responses: if
    it writes its copy back, the store ends exactly as if the cancellation
    had not happened (the cancellation is lost); if it writes nothing (the
    [catch] path), the cancelled record stays, the retry is scheduled with
    the [catch] delay, and that retry stops on the cancelled record. *)
Theorem inflight_poll_overwrites_cancellation (b : backend) (jobs : store)
    (jid : string) (job : JobRecord) (a : nat) (iso iso' : string) :
  poll_begin jobs jid = Some job ->
  snd (fst (poll_finish b (fst (cancelJob jobs jid iso)) job a iso'))
  = snd (fst (poll_finish b jobs job a iso'))
  /\ snd (poll_finish b (fst (cancelJob jobs jid iso)) job a iso')
     = snd (poll_finish b jobs job a iso')
  /\ ((fst (fst (poll_finish b (fst (cancelJob jobs jid iso)) job a iso'))
       = fst (fst (poll_finish b jobs job a iso'))
       /\ exists j', fst (fst (poll_finish b jobs job a iso')) = updateJob jobs j'
                    /\ j'.(id) = jid)
      \/ (fst (fst (poll_finish b (fst (cancelJob jobs jid iso)) job a iso'))
          = fst (cancelJob jobs jid iso)
          /\ fst (fst (poll_finish b jobs job a iso')) = jobs
          /\ snd (poll_finish b jobs job a iso') = Some (catch_delay a, S a)
          /\ forall b' iso'',
               pollJobStatus b' (fst (cancelJob jobs jid iso)) jid (S a) iso''
               = (fst (cancelJob jobs jid iso), [], None))).
Proof.
  intro Hb. unfold poll_begin in Hb.
  destruct (getJobById jobs jid) as [r|] eqn:E; [|discriminate].
  destruct (is_terminal r) eqn:Ht; [discriminate|]. injection Hb as <-.
  destruct (cancelJob_found jobs jid iso r E) as [Hc Hg].
  pose proof (getJobById_id _ _ _ E) as Hid.
  rewrite Hc. cbn [fst].
  unfold poll_finish. cbv zeta.
  destruct_matches_eqn; cbn [fst snd];
    (split; [reflexivity|]); (split; [reflexivity|]);
    first [left; split; [apply updateJob_updateJob_same; reflexivity|];
           eexists; split; [reflexivity | exact Hid]
          | right; split; [reflexivity|]; split; [reflexivity|];
            split; [reflexivity|]; intros b' iso'';
            apply (pollJobStatus_terminal _ _ _ (cancelled r iso)); [exact Hg | reflexivity]].
Qed.

Lemma inflight_poll_overwrites_cancellation_witness :
  fst (fst (poll_finish running_backend (fst (cancelJob [sample_job] "job-1" "t1"))
              sample_job 0 "t2"))
  = fst (fst (poll_finish running_backend [sample_job] sample_job 0 "t2"))
  \/ fst (fst (poll_finish running_backend (fst (cancelJob [sample_job] "job-1" "t1"))
                 sample_job 0 "t2"))
     = fst (cancelJob [sample_job] "job-1" "t1").
Proof.
  destruct (proj2 (proj2 (inflight_poll_overwrites_cancellation running_backend
              [sample_job] "job-1" sample_job 0 "t1" "t2" ltac:(reflexivity))))
    as [[H _] | [H _]]; [left | right]; exact H.
Defined.

(** ** C10 *)

(** Claim C10: when no record has id [k], [updateJob] of a record with
    that id writes nothing, so neither the write-back of a poll that had
    read the record before it was deleted, nor a new poll invocation, nor
    [cancelJob] (which answers "Job not found") re-creates it. *)
Theorem updateJob_never_inserts (jobs : store) (k : string) :
  getJobById jobs k = None ->
  (forall r, r.(id) = k -> updateJob jobs r = jobs)
  /\ (forall b job a iso, job.(id) = k ->
        fst (fst (poll_finish b jobs job a iso)) = jobs)
  /\ (forall b a iso, fst (fst (pollJobStatus b jobs k a iso)) = jobs)
  /\ (forall iso, cancelJob jobs k iso = (jobs, inl "Job not found")).
Proof.
  intro H.
  assert (Hu : forall r, r.(id) = k -> updateJob jobs r = jobs)
    by (intros r Hk; apply updateJob_absent; rewrite Hk; exact H).
  split; [exact Hu|]. split; [|split].
  - intros b job a iso Hk.
    destruct (poll_finish_store b jobs job a iso) as [E | [j' [Hj' E]]];
      rewrite E; [reflexivity|]. apply Hu. congruence.
  - intros b a iso. unfold pollJobStatus.
    destruct (Nat.leb POLL_MAX_ATTEMPTS a).
    + cbn [fst]. unfold poll_timeout. rewrite H. reflexivity.
    + unfold poll_begin. rewrite H. reflexivity.
  - intro iso. unfold cancelJob. rewrite H. reflexivity.
Qed.

Lemma updateJob_never_inserts_witness :
  updateJob [sample_job] (mkJob "job-2" None None JNull (JStr "error") None
                            "t" "t" 0 (JStr "Cancelled by user") JNull)
  = [sample_job].
Proof.
  apply (proj1 (updateJob_never_inserts [sample_job] "job-2" eq_refl)). reflexivity.
Defined.

(** * Further properties of the code *)

(** ** Helper lemmas *)

Lemma updateJob_saveJob_fresh (jobs : store) (r r' : JobRecord) :
  getJobById jobs r.(id) = None -> r'.(id) = r.(id) ->
  updateJob (saveJob jobs r) r' = (jobs ++ [r'])%list.
Proof.
  intros H Hid. unfold saveJob.
  induction jobs as [|j rest IH]; cbn [app].
  - rewrite updateJob_cons, Hid, String.eqb_refl. reflexivity.
  - rewrite getJobById_cons in H. rewrite updateJob_cons.
    destruct (String.eqb j.(id) r.(id)) eqn:E; [discriminate|].
    rewrite Hid, E. f_equal. apply IH, H.
Qed.

Lemma map_id_updateJob (jobs : store) (r : JobRecord) :
  map id (updateJob jobs r) = map id jobs.
Proof.
  induction jobs as [|j rest IH]; [reflexivity|].
  rewrite updateJob_cons. destruct (String.eqb j.(id) r.(id)) eqn:E.
  - apply String.eqb_eq in E. cbn [map]. congruence.
  - cbn [map]. f_equal. exact IH.
Qed.

Lemma Forall_updateJob (P : JobRecord -> Prop) (jobs : store) (r : JobRecord) :
  Forall P jobs -> P r -> Forall P (updateJob jobs r).
Proof.
  intros H Hr. induction H as [|j rest Hj Hrest IH]; [constructor|].
  rewrite updateJob_cons. destruct (String.eqb j.(id) r.(id)); constructor; assumption.
Qed.

Lemma getJobById_in (jobs : store) (k : string) (r : JobRecord) :
  getJobById jobs k = Some r -> In r jobs.
Proof.
  induction jobs as [|j rest IH]; [discriminate|].
  rewrite getJobById_cons. destruct (String.eqb j.(id) k).
  - intro H; injection H as <-. left; reflexivity.
  - intro H. right. apply IH, H.
Qed.

Lemma getJobById_none_notin (jobs : store) (k : string) :
  getJobById jobs k = None -> ~ In k (map id jobs).
Proof.
  induction jobs as [|j rest IH]; [intros _ []|].
  rewrite getJobById_cons. destruct (String.eqb j.(id) k) eqn:E; [discriminate|].
  intros H [Hk|Hk].
  - apply String.eqb_neq in E. contradiction.
  - apply IH; assumption.
Qed.

(** A poll invocation writes, if anything, a copy of the record [jid]. *)
Lemma pollJobStatus_store (b : backend) (jobs : store) (jid : string)
    (a : nat) (iso : string) :
  fst (fst (pollJobStatus b jobs jid a iso)) = jobs
  \/ exists r', r'.(id) = jid
       /\ fst (fst (pollJobStatus b jobs jid a iso)) = updateJob jobs r'.
Proof.
  unfold pollJobStatus. destruct (Nat.leb POLL_MAX_ATTEMPTS a); cbn [fst].
  - unfold poll_timeout. destruct (getJobById jobs jid) as [job|] eqn:E; [|left; reflexivity].
    destruct (_ || _); [|left; reflexivity].
    right. eexists. split; [|reflexivity]. apply (getJobById_id _ _ _ E).
  - unfold poll_begin. destruct (getJobById jobs jid) as [job|] eqn:E; [|left; reflexivity].
    destruct (is_terminal job); [left; reflexivity|].
    destruct (poll_finish_store b jobs job a iso) as [H | [j' [Hj' H]]];
      [left; exact H | right].
    exists j'. split; [|exact H]. rewrite Hj'. apply (getJobById_id _ _ _ E).
Qed.

(** ** Submission *)

(** A configured submission of a non-null payload under a fresh id that
    the backend accepts with a 2xx, non-null JSON body appends one pending
    record at the end
    of the store (payload with [job_id] set, url copied, [backendJobId]
    the body's truthy [job_id] or else the local id), sends one submit
    request, starts the poll loop and answers both ids. *)
Theorem submit_accepted_appends_pending (b : backend) (jobs : store) (p : json)
    (bu ak : option string) (gid : string) (now : Z) (iso : string)
    (code : Z) (text : string) (data : json) :
  configured bu = true -> configured ak = true -> p <> JNull ->
  getJobById jobs gid = None ->
  b_submit b (spread_with p "job_id" (JStr gid)) = HResp code text (inr data) ->
  http_ok code = true -> data <> JNull ->
  submitJob b jobs p false bu ak gid now iso
  = ((jobs ++ [mkJob gid (Some (js_or (json_get "job_id" data) (JStr gid)))
                 (json_get "url" p) (spread_with p "job_id" (JStr gid))
                 (JStr "pending") None iso iso 0 JNull JNull])%list,
     [ECallSubmit; EStartPoll gid],
     inr (SubmitOk gid (js_or (json_get "job_id" data) (JStr gid)))).
Proof.
  intros Hbu Hak Hp Hfresh Hs Hok Hnn.
  unfold submitJob. rewrite Hbu, Hak. cbn [negb].
  destruct p; [contradiction| | | | |]; cbn [payload];
    rewrite Hs, Hok; cbn [negb];
    (destruct data as [| | | | |dfs]; [contradiction| | | | |];
     (rewrite updateJob_saveJob_fresh; [reflexivity | exact Hfresh | reflexivity])).
Qed.

Lemma submit_accepted_appends_pending_witness :
  submitJob running_backend [] sample_payload false (Some "https://b") (Some "key")
    "job-1" 0 "t"
  = ([mkJob "job-1" (Some (JStr "job-123")) (Some (JStr "https://example.com"))
        (spread_with sample_payload "job_id" (JStr "job-1"))
        (JStr "pending") None "t" "t" 0 JNull JNull],
     [ECallSubmit; EStartPoll "job-1"], inr (SubmitOk "job-1" (JStr "job-123"))).
Proof.
  apply (submit_accepted_appends_pending running_backend [] sample_payload
           (Some "https://b") (Some "key") "job-1" 0 "t" 200 "OK" accepted_body);
    first [reflexivity | discriminate].
Defined.

(** A configured submission of a non-null payload under a fresh id whose
    request fails (network
    failure, non-2xx answer, or unparsable body) appends one record with
    status error carrying the failure message, starts no poll loop, and
    rethrows that same message. *)
Theorem submit_failure_records_error (b : backend) (jobs : store) (p : json)
    (bu ak : option string) (gid : string) (now : Z) (iso : string) (msg : string) :
  configured bu = true -> configured ak = true -> p <> JNull ->
  getJobById jobs gid = None ->
  (b_submit b (spread_with p "job_id" (JStr gid)) = HNetFail msg
   \/ (exists code text body,
         b_submit b (spread_with p "job_id" (JStr gid)) = HResp code text body
         /\ http_ok code = false
         /\ msg = ("Backend returned " ++ show_Z code ++ ": " ++ text)%string)
   \/ (exists code text,
         b_submit b (spread_with p "job_id" (JStr gid)) = HResp code text (inl msg)
         /\ http_ok code = true)) ->
  submitJob b jobs p false bu ak gid now iso
  = ((jobs ++ [mkJob gid None (json_get "url" p) (spread_with p "job_id" (JStr gid))
                 (JStr "error") None iso iso 0 (JStr msg) JNull])%list,
     [ECallSubmit], inl msg).
Proof.
  intros Hbu Hak Hp Hfresh Hcase.
  unfold submitJob. rewrite Hbu, Hak. cbn [negb].
  destruct p; [contradiction| | | | |]; cbn [payload];
  (destruct Hcase as [Hs | [[code [text [body [Hs [Hok Hm]]]]] | [code [text [Hs Hok]]]]];
    rewrite Hs; [| rewrite Hok; cbn [negb]; subst msg | rewrite Hok; cbn [negb]];
    (rewrite updateJob_saveJob_fresh; [reflexivity | exact Hfresh | reflexivity])).
Qed.

Lemma submit_failure_records_error_witness :
  submitJob offline_backend [] sample_payload false (Some "https://b") (Some "key")
    "job-1" 0 "t"
  = ([mkJob "job-1" None (Some (JStr "https://example.com"))
        (spread_with sample_payload "job_id" (JStr "job-1"))
        (JStr "error") None "t" "t" 0 (JStr "Failed to fetch") JNull],
     [ECallSubmit], inl "Failed to fetch").
Proof.
  apply (submit_failure_records_error offline_backend [] sample_payload
           (Some "https://b") (Some "key") "job-1" 0 "t" "Failed to fetch");
    try reflexivity; try discriminate.
  left. reflexivity.
Defined.

(** ** Poll outcomes *)

(** A poll below the attempt ceiling on a pending or running record whose
    status answer is a 2xx body with status ['error'] stores the record as
    error with the body's truthy [error] or else "Unknown error", makes no
    other request and schedules no further attempt. *)
Theorem poll_backend_error_is_terminal (b : backend) (jobs : store)
    (jid : string) (r : JobRecord) (a : nat) (iso : string)
    (code : Z) (text : string) (sd : json) :
  getJobById jobs jid = Some r -> is_active r = true ->
  (a < POLL_MAX_ATTEMPTS)%nat ->
  b_status b (backend_id r) = HResp code text (inr sd) -> http_ok code = true ->
  json_get "status" sd = Some (JStr "error") ->
  exists r',
    pollJobStatus b jobs jid a iso = (updateJob jobs r', [ECallStatus], None)
    /\ getJobById (updateJob jobs r') jid = Some r'
    /\ r'.(status) = JStr "error"
    /\ r'.(error) = js_or (json_get "error" sd) (JStr "Unknown error")
    /\ r'.(result) = r.(result).
Proof.
  intros Hr Hact Ha Hs Hok Hst.
  unfold pollJobStatus.
  assert (Nat.leb POLL_MAX_ATTEMPTS a = false) as -> by (apply Nat.leb_gt; exact Ha).
  rewrite (poll_begin_active _ _ _ Hr Hact).
  unfold poll_finish. rewrite Hs, Hok. cbn [negb].
  destruct sd as [| | | | |fs]; try (simpl in Hst; discriminate).
  rewrite Hst. cbn.
  eexists. split; [reflexivity|]. split.
  - apply (getJobById_updateJob_found _ _ r); [exact Hr|].
    apply (getJobById_id _ _ _ Hr).
  - split; [reflexivity|]. split; reflexivity.
Qed.

Lemma poll_backend_error_is_terminal_witness :
  exists r', pollJobStatus
      (mkBackend (fun _ => HNetFail "")
         (fun _ => HResp 200 "OK" (inr (JObj [("status", JStr "error");
                                             ("error", JStr "bad material")])))
         (fun _ => HNetFail ""))
      [sample_job] "job-1" 0 "t"
    = (updateJob [sample_job] r', [ECallStatus], None)
    /\ getJobById (updateJob [sample_job] r') "job-1" = Some r'
    /\ r'.(status) = JStr "error"
    /\ r'.(error) = JStr "bad material"
    /\ r'.(result) = JNull.
Proof.
  destruct (poll_backend_error_is_terminal
              (mkBackend (fun _ => HNetFail "")
                 (fun _ => HResp 200 "OK" (inr (JObj [("status", JStr "error");
                                                     ("error", JStr "bad material")])))
                 (fun _ => HNetFail ""))
              [sample_job] "job-1" sample_job 0 "t" 200 "OK"
              (JObj [("status", JStr "error"); ("error", JStr "bad material")]))
    as [r' [H1 [H2 [H3 [H4 H5]]]]];
    try reflexivity; [unfold POLL_MAX_ATTEMPTS; lia|].
  exists r'. repeat split; assumption.
Defined.

(** A poll below the attempt ceiling on a pending or running record whose
    status answer has status ['done'] and whose result request answers a
    2xx parsable body stores the record as done with that body as result,
    leaves its error as it was, and schedules no further attempt. *)
Theorem poll_done_stores_result (b : backend) (jobs : store)
    (jid : string) (r : JobRecord) (a : nat) (iso : string)
    (code rcode : Z) (text rtext : string) (sd res : json) :
  getJobById jobs jid = Some r -> is_active r = true ->
  (a < POLL_MAX_ATTEMPTS)%nat ->
  b_status b (backend_id r) = HResp code text (inr sd) -> http_ok code = true ->
  json_get "status" sd = Some (JStr "done") ->
  b_result b (backend_id r) = HResp rcode rtext (inr res) -> http_ok rcode = true ->
  exists r',
    pollJobStatus b jobs jid a iso
      = (updateJob jobs r', [ECallStatus; ECallResult], None)
    /\ getJobById (updateJob jobs r') jid = Some r'
    /\ r'.(status) = JStr "done" /\ r'.(result) = res /\ r'.(error) = r.(error)
    /\ r'.(progress) = json_get "progress" sd.
Proof.
  intros Hr Hact Ha Hs Hok Hst Hres Hrok.
  unfold pollJobStatus.
  assert (Nat.leb POLL_MAX_ATTEMPTS a = false) as -> by (apply Nat.leb_gt; exact Ha).
  rewrite (poll_begin_active _ _ _ Hr Hact).
  unfold poll_finish. rewrite Hs, Hok. cbn [negb].
  destruct sd as [| | | | |fs]; try (simpl in Hst; discriminate).
  rewrite Hst. cbn zeta. cbn [or_undef is_str].
  rewrite String.eqb_refl, Hres, Hrok.
  eexists. split; [reflexivity|]. split.
  - apply (getJobById_updateJob_found _ _ r); [exact Hr|].
    apply (getJobById_id _ _ _ Hr).
  - repeat split.
Qed.

Lemma poll_done_stores_result_witness :
  exists r', getJobById (fst (fst (pollJobStatus done_ok_backend [sample_job] "job-1" 0 "t")))
               "job-1" = Some r'
    /\ r'.(status) = JStr "done" /\ r'.(result) = mock_result 0.
Proof.
  destruct (poll_done_stores_result done_ok_backend [sample_job] "job-1" sample_job 0 "t"
              200 200 "OK" "OK" done_body (mock_result 0))
    as [r' [H1 [H2 [H3 [H4 _]]]]];
    try reflexivity; [unfold POLL_MAX_ATTEMPTS; lia|].
  exists r'. rewrite H1. cbn [fst]. repeat split; assumption.
Defined.

(** ** Frame *)

(** A poll invocation and a cancellation only ever rewrite the record of
    their own id: every other id finds the same record as before, and the
    sequence of ids in the collection (its length and order) is unchanged. *)
Theorem poll_and_cancel_touch_only_their_job (jobs : store) (jid : string) :
  (forall b a iso,
     map id (fst (fst (pollJobStatus b jobs jid a iso))) = map id jobs
     /\ forall k, k <> jid ->
          getJobById (fst (fst (pollJobStatus b jobs jid a iso))) k = getJobById jobs k)
  /\ (forall iso,
     map id (fst (cancelJob jobs jid iso)) = map id jobs
     /\ forall k, k <> jid ->
          getJobById (fst (cancelJob jobs jid iso)) k = getJobById jobs k).
Proof.
  split.
  - intros b a iso.
    destruct (pollJobStatus_store b jobs jid a iso) as [-> | [r' [Hid ->]]];
      [split; reflexivity|].
    split; [apply map_id_updateJob|].
    intros k Hk. apply getJobById_updateJob_other. congruence.
  - intro iso. unfold cancelJob.
    destruct (getJobById jobs jid) as [r|] eqn:E; cbn [fst]; [|split; reflexivity].
    split; [apply map_id_updateJob|].
    intros k Hk. apply getJobById_updateJob_other.
    cbn. rewrite (getJobById_id _ _ _ E). congruence.
Qed.

Lemma poll_and_cancel_touch_only_their_job_witness :
  getJobById (fst (fst (pollJobStatus done_ok_backend [sample_job; done_job] "job-1" 0 "t")))
    "job-1" <> None
  /\ getJobById (fst (cancelJob [sample_job] "job-1" "t")) "job-2" = None.
Proof.
  split.
  - vm_compute. discriminate.
  - rewrite (proj2 (proj2 (poll_and_cancel_touch_only_their_job [sample_job] "job-1") "t")
               "job-2" ltac:(discriminate)).
    reflexivity.
Defined.

(** ** Transient failures *)

Lemma poll_step_unsettled (b : backend) (jobs : store) (jid : string)
    (a : nat) (iso : string) :
  unsettled b -> (a < POLL_MAX_ATTEMPTS)%nat -> active_in jobs jid ->
  exists jobs' d,
    pollJobStatus b jobs jid a iso = (jobs', [ECallStatus], Some (d, S a))
    /\ active_in jobs' jid.
Proof.
  intros Hun Ha [r [Hr Hact]].
  unfold pollJobStatus.
  assert (Nat.leb POLL_MAX_ATTEMPTS a = false) as -> by (apply Nat.leb_gt; exact Ha).
  rewrite (poll_begin_active _ _ _ Hr Hact).
  unfold poll_finish.
  specialize (Hun (backend_id r)).
  assert (Hkeep : active_in jobs jid) by (exists r; split; assumption).
  destruct (b_status b (backend_id r)) as [code t [m|sd]|m].
  - destruct (http_ok code); cbn; do 2 eexists; split; [reflexivity | exact Hkeep|
                                                       reflexivity | exact Hkeep].
  - destruct (http_ok code) eqn:Hok; cbn [negb];
      [|do 2 eexists; split; [reflexivity | exact Hkeep]].
    destruct Hun as [Hf | [Hnull | Hst]]; [discriminate | subst sd;
      do 2 eexists; split; [reflexivity | exact Hkeep]|].
    destruct sd as [| | | | |fs];
      try (destruct Hst as [Hst|Hst]; simpl in Hst; discriminate).
    destruct Hst as [Hst|Hst]; rewrite Hst; cbn;
      (do 2 eexists; split; [reflexivity|]);
      (eexists; split;
       [apply (getJobById_updateJob_found _ _ r); [exact Hr | apply (getJobById_id _ _ _ Hr)]
       | reflexivity]).
  - cbn. do 2 eexists. split; [reflexivity | exact Hkeep].
Qed.

Lemma poll_loop_unsettled (bs : nat -> backend) (jid iso : string) :
  (forall a, unsettled (bs a)) ->
  forall k a jobs, (a <= POLL_MAX_ATTEMPTS)%nat -> active_in jobs jid ->
    (POLL_MAX_ATTEMPTS - a < k)%nat ->
    snd (poll_loop k bs jobs jid a iso) = repeat ECallStatus (POLL_MAX_ATTEMPTS - a)
    /\ exists r, getJobById (fst (poll_loop k bs jobs jid a iso)) jid = Some r
         /\ r.(status) = JStr "error"
         /\ r.(error) = JStr "Timeout: Job did not complete in time".
Proof.
  intros Hun k. induction k as [|k IH]; intros a jobs Ha Hact Hk; [lia|].
  destruct (Nat.lt_ge_cases a POLL_MAX_ATTEMPTS) as [Hlt|Hge].
  - destruct (poll_step_unsettled (bs a) jobs jid a iso (Hun a) Hlt Hact)
      as [jobs' [d [Hs Hact']]].
    cbn [poll_loop]. rewrite Hs.
    destruct (IH (S a) jobs' ltac:(lia) Hact' ltac:(lia)) as [He Hr].
    destruct (poll_loop k bs jobs' jid (S a) iso) as [jobs'' eff'] eqn:El.
    cbn [fst snd] in *. rewrite He. split; [|exact Hr].
    replace (POLL_MAX_ATTEMPTS - a)%nat with (S (POLL_MAX_ATTEMPTS - S a)) by lia.
    reflexivity.
  - destruct (poll_step_ceiling (bs a) jobs jid a iso Hge Hact) as [r [Hs [Hg [H1 H2]]]].
    cbn [poll_loop]. rewrite Hs. cbn [fst snd].
    replace (POLL_MAX_ATTEMPTS - a)%nat with 0%nat by lia.
    split; [reflexivity|]. exists r. auto.
Qed.

(** Transport and parsing failures during polling are retried, never
    failing the job at once: when every status answer of a poll loop
    leaves the job unsettled (a network failure, a non-2xx code, an
    unparsable or null body, or a status of [running] or [pending], in any
    mix from one attempt to the next), the loop started at attempt 0 on a
    pending or running record makes exactly [POLL_MAX_ATTEMPTS] (60)
    status requests and then stores the timeout error, however many timer
    firings are allowed. *)
Theorem poll_transient_failures_end_in_timeout (bs : nat -> backend) (jobs : store)
    (jid iso : string) (n : nat) :
  (forall a, unsettled (bs a)) -> active_in jobs jid -> (POLL_MAX_ATTEMPTS < n)%nat ->
  snd (poll_loop n bs jobs jid 0 iso) = repeat ECallStatus POLL_MAX_ATTEMPTS
  /\ exists r, getJobById (fst (poll_loop n bs jobs jid 0 iso)) jid = Some r
       /\ r.(status) = JStr "error"
       /\ r.(error) = JStr "Timeout: Job did not complete in time".
Proof.
  intros Hun Hact Hn.
  rewrite <- (Nat.sub_0_r POLL_MAX_ATTEMPTS).
  apply (poll_loop_unsettled bs jid iso Hun n 0 jobs); [lia | exact Hact | lia].
Qed.

Lemma poll_transient_failures_end_in_timeout_witness :
  snd (poll_loop 100 flaky_backend [sample_job] "job-1" 0 "t") = repeat ECallStatus 60.
Proof.
  apply (poll_transient_failures_end_in_timeout flaky_backend [sample_job] "job-1" "t" 100).
  - intros a x. unfold flaky_backend. destruct (Nat.even a); cbn.
    + exact I.
    + right. right. left. reflexivity.
  - exists sample_job. split; reflexivity.
  - unfold POLL_MAX_ATTEMPTS. lia.
Defined.

(** ** Invariants of reachable stores *)

Lemma js_or_not_null (v : option json) (d : json) :
  d <> JNull -> js_or v d <> JNull.
Proof.
  intro Hd. destruct v as [x|]; [|exact Hd]. cbn.
  destruct x; cbn; try discriminate; try exact Hd;
    match goal with |- context [if ?c then _ else _] => destruct c end;
    first [discriminate | exact Hd].
Qed.

Lemma done_not_error (v : json) :
  is_str v "done" = true -> is_str v "error" = false.
Proof.
  destruct v; try discriminate. cbn. intro H. apply String.eqb_eq in H. subst. reflexivity.
Qed.

Ltac finish_err_ok Hjob :=
  match goal with
  | H : is_str ?v "error" = true |- context [is_str ?v "error"] =>
      rewrite H; apply js_or_not_null; discriminate
  | H : is_str ?v "error" = false |- context [is_str ?v "error"] =>
      rewrite H; exact Hjob
  | H : is_str ?v "done" = true |- context [is_str ?v "error"] =>
      rewrite (done_not_error _ H); exact Hjob
  end.

(** The write-back of a poll keeps [err_ok] when its copy was read while
    the job was not in error. *)
Lemma poll_finish_err_ok (b : backend) (jobs : store) (job : JobRecord)
    (a : nat) (iso : string) :
  job.(error) = JNull ->
  fst (fst (poll_finish b jobs job a iso)) = jobs
  \/ exists j', fst (fst (poll_finish b jobs job a iso)) = updateJob jobs j'
       /\ j'.(id) = job.(id) /\ err_ok j'.
Proof.
  intro Hjob. unfold poll_finish. cbv zeta.
  destruct_matches_eqn; cbn [fst];
    first [left; reflexivity
          | right; eexists; split; [reflexivity|]; split; [reflexivity|];
            unfold err_ok;
            cbn [status error set_status set_error set_result set_progress set_updatedAt];
            finish_err_ok Hjob].
Qed.

Lemma submitJob_err_ok (b : backend) (jobs : store) (p : json) (mock : bool)
    (bu ak : option string) (gid : string) (now : Z) (iso : string) :
  fst (fst (submitJob b jobs p mock bu ak gid now iso)) = jobs
  \/ exists j j', fst (fst (submitJob b jobs p mock bu ak gid now iso))
                    = updateJob (saveJob jobs j) j'
       /\ j.(id) = gid /\ j'.(id) = gid /\ err_ok j'.
Proof.
  unfold submitJob. cbv zeta.
  split_matches; cbn [fst];
    first [left; reflexivity
          | right; do 2 eexists; split; [reflexivity|];
            split; [reflexivity|]; split; [reflexivity|];
            unfold err_ok; cbn; first [reflexivity | discriminate]].
Qed.

(** The ids left by [deleteJob] are the stored ids other than [jid], in
    their order. *)
Lemma deleteJob_ids (s : store) (jid : string) :
  map id (deleteJob s jid) = filter (fun k => negb (String.eqb k jid)) (map id s).
Proof.
  unfold deleteJob. induction s as [|j rest IH]; [reflexivity|].
  cbn [filter map]. destruct (negb (String.eqb j.(id) jid)); cbn [map]; congruence.
Qed.

(** Every store reachable by submissions under fresh ids, polls (also
    ones whose write-back lands after other operations), cancellations,
    deletions and clears holds at most one record per id, and each record
    carries a non-null [error] exactly when its status is ['error']. *)
Theorem reachable_ids_unique_and_error_consistent (s : store) :
  reachable s -> NoDup (map id s) /\ Forall err_ok s.
Proof.
  induction 1 as [
    | s b p mock bu ak gid now iso Hs [IHn IHf] Hfresh
    | s b jid a iso Hs [IHn IHf]
    | s0 s b jid job a iso Hs0 [IHn0 IHf0] Hbeg Hs [IHn IHf]
    | s jid iso Hs [IHn IHf]
    | s jid Hs [IHn IHf]
    | s Hs [IHn IHf] ].
  - split; constructor.
  - destruct (submitJob_err_ok b s p mock bu ak gid now iso)
      as [-> | [j [j' [-> [Hj [Hj' Hok]]]]]]; [split; assumption|].
    rewrite updateJob_saveJob_fresh by congruence.
    rewrite map_app. cbn [map]. split.
    + apply NoDup_app; [exact IHn | repeat constructor; intros [] |].
      intros x Hx [Hy|[]]. subst x. rewrite Hj' in Hx.
      exact (getJobById_none_notin s gid Hfresh Hx).
    + apply Forall_app. split; [exact IHf | repeat constructor; exact Hok].
  - unfold pollJobStatus. destruct (Nat.leb POLL_MAX_ATTEMPTS a); cbn [fst].
    + unfold poll_timeout. destruct (getJobById s jid); [|split; assumption].
      destruct (_ || _); [|split; assumption].
      split; [rewrite map_id_updateJob; exact IHn|].
      apply Forall_updateJob; [exact IHf|]. unfold err_ok; cbn. discriminate.
    + unfold poll_begin. destruct (getJobById s jid) as [r|] eqn:E; [|split; assumption].
      destruct (is_terminal r) eqn:Ht; [split; assumption|].
      assert (Hr : err_ok r) by (rewrite Forall_forall in IHf; apply IHf, (getJobById_in _ _ _ E)).
      assert (Herr : r.(error) = JNull).
      { unfold err_ok in Hr. unfold is_terminal in Ht. apply orb_false_iff in Ht as [_ Ht].
        rewrite Ht in Hr. exact Hr. }
      destruct (poll_finish_err_ok b s r a iso Herr) as [-> | [j' [-> [_ Hok]]]];
        [split; assumption|].
      split; [rewrite map_id_updateJob; exact IHn | apply Forall_updateJob; assumption].
  - unfold poll_begin in Hbeg. destruct (getJobById s0 jid) as [r|] eqn:E; [|discriminate].
    destruct (is_terminal r) eqn:Ht; [discriminate|]. injection Hbeg as <-.
    assert (Hr : err_ok r) by (rewrite Forall_forall in IHf0; apply IHf0, (getJobById_in _ _ _ E)).
    assert (Herr : r.(error) = JNull).
    { unfold err_ok in Hr. unfold is_terminal in Ht. apply orb_false_iff in Ht as [_ Ht].
      rewrite Ht in Hr. exact Hr. }
    destruct (poll_finish_err_ok b s r a iso Herr) as [-> | [j' [-> [_ Hok]]]];
      [split; assumption|].
    split; [rewrite map_id_updateJob; exact IHn | apply Forall_updateJob; assumption].
  - unfold cancelJob. destruct (getJobById s jid); cbn [fst]; [|split; assumption].
    split; [rewrite map_id_updateJob; exact IHn|].
    apply Forall_updateJob; [exact IHf|]. unfold err_ok; cbn. discriminate.
  - split; [rewrite deleteJob_ids; apply NoDup_filter, IHn|]. unfold deleteJob.
    apply Forall_forall. intros x Hx. apply filter_In in Hx as [Hx _].
    rewrite Forall_forall in IHf. apply IHf, Hx.
  - split; constructor.
Qed.

Lemma reachable_ids_unique_and_error_consistent_witness :
  let s := fst (cancelJob
                  (fst (fst (pollJobStatus running_backend
                     (fst (fst (submitJob running_backend [] sample_payload false
                                  (Some "https://api.example") (Some "key")
                                  "job-1" 0 "t0")))
                     "job-1" 0 "t1")))
                  "job-1" "t2") in
  reachable s /\ NoDup (map id s) /\ Forall err_ok s.
Proof.
  intro s.
  assert (Hs : reachable s).
  { apply reach_cancel, reach_poll, reach_submit; [apply reach_empty | reflexivity]. }
  split; [exact Hs|].
  apply reachable_ids_unique_and_error_consistent, Hs.
Defined.

(** ** Deletion *)

Lemma getJobById_deleteJob_self (s : store) (jid : string) :
  getJobById (deleteJob s jid) jid = None.
Proof.
  unfold deleteJob. induction s as [|j rest IH]; [reflexivity|].
  cbn [filter]. destruct (String.eqb j.(id) jid) eqn:E; cbn [negb]; [exact IH|].
  rewrite getJobById_cons, E. exact IH.
Qed.

Lemma getJobById_deleteJob_other (s : store) (jid k : string) :
  k <> jid -> getJobById (deleteJob s jid) k = getJobById s k.
Proof.
  intro Hk. unfold deleteJob. induction s as [|j rest IH]; [reflexivity|].
  cbn [filter]. rewrite (getJobById_cons j rest k).
  destruct (String.eqb j.(id) jid) eqn:E; cbn [negb].
  - apply String.eqb_eq in E.
    assert (String.eqb j.(id) k = false) as -> by (apply String.eqb_neq; congruence).
    exact IH.
  - rewrite getJobById_cons. destruct (String.eqb j.(id) k); [reflexivity | exact IH].
Qed.

(** [deleteJob] removes the record and leaves every other id's record as
    it was; unlike a cancellation (claim C9), a deleted job is never
    brought back: neither the write-back of a poll already in flight for
    it, nor a later poll or cancellation of its id, changes the store. *)
Theorem deleted_job_stays_deleted (b : backend) (s : store) (jid : string)
    (job : JobRecord) (a : nat) (iso iso' : string) :
  job.(id) = jid ->
  getJobById (deleteJob s jid) jid = None
  /\ (forall k, k <> jid -> getJobById (deleteJob s jid) k = getJobById s k)
  /\ fst (fst (poll_finish b (deleteJob s jid) job a iso)) = deleteJob s jid
  /\ fst (fst (pollJobStatus b (deleteJob s jid) jid a iso)) = deleteJob s jid
  /\ fst (cancelJob (deleteJob s jid) jid iso') = deleteJob s jid.
Proof.
  intro Hid. pose proof (getJobById_deleteJob_self s jid) as Hself.
  split; [exact Hself|]. split; [apply getJobById_deleteJob_other|].
  split; [|split].
  - destruct (poll_finish_store b (deleteJob s jid) job a iso) as [H | [j' [Hj' H]]];
      [exact H|].
    rewrite H. apply updateJob_absent. rewrite Hj', Hid. exact Hself.
  - unfold pollJobStatus, poll_timeout, poll_begin. rewrite Hself.
    destruct (Nat.leb POLL_MAX_ATTEMPTS a); reflexivity.
  - unfold cancelJob. rewrite Hself. reflexivity.
Qed.

Lemma deleted_job_stays_deleted_witness :
  fst (fst (poll_finish done_ok_backend (deleteJob [sample_job; done_job] "job-1")
              sample_job 0 "t"))
  = deleteJob [sample_job; done_job] "job-1".
Proof.
  exact (proj1 (proj2 (proj2 (deleted_job_stays_deleted done_ok_backend
           [sample_job; done_job] "job-1" sample_job 0 "t" "t" ltac:(reflexivity))))).
Defined.

(** ** Popup polling *)

(** Every status answer the popup gets is a successful [running] or
    [pending]. *)
Definition popup_still_processing (resp : nat -> string + json) : Prop :=
  forall k, exists r, resp k = inr r /\ truthy (json_get "success" r) = true
    /\ (json_get "status" r = Some (JStr "running")
        \/ json_get "status" r = Some (JStr "pending")).

Lemma popup_poll_processing (resp : nat -> string + json) :
  popup_still_processing resp ->
  forall fuel a, (a < 20)%nat -> (20 - a <= fuel)%nat ->
    exists sts, popup_poll fuel a resp = ((map PProcessing sts ++ [PTimeout])%list, 20%nat)
      /\ length sts = (20 - a)%nat.
Proof.
  intros Hp fuel. induction fuel as [|f IH]; intros a Ha Hf; [lia|].
  cbn [popup_poll]. destruct (Hp (S a)) as [r [Hr [Hs Hst]]].
  rewrite Hr, Hs.
  destruct Hst as [E|E]; rewrite E; cbn [or_undef is_str];
    (destruct (Nat.ltb (S a) 20) eqn:El;
     [apply Nat.ltb_lt in El;
      destruct (IH (S a) El ltac:(lia)) as [sts [Hq Hl]]; rewrite Hq;
      eexists (_ :: sts); split; [reflexivity | cbn [length]; lia]
     | apply Nat.ltb_ge in El;
       replace (S a) with 20%nat by lia;
       eexists [_]; split; [reflexivity | cbn [length]; lia]]).
Qed.

(** The popup gives up on its own: while the service worker keeps
    answering [running] or [pending], the popup's [poll] sends exactly 20
    status queries, shows a processing status after each, and then shows
    the timeout message, whatever the number of timer firings beyond 20. *)
Theorem popup_poll_gives_up_after_20 (fuel : nat) (resp : nat -> string + json) :
  popup_still_processing resp -> (20 <= fuel)%nat ->
  exists sts, popup_poll fuel 0 resp = ((map PProcessing sts ++ [PTimeout])%list, 20%nat)
    /\ length sts = 20%nat.
Proof.
  intros Hp Hf. apply (popup_poll_processing resp Hp fuel 0); lia.
Qed.

Lemma popup_poll_gives_up_after_20_witness :
  exists sts, popup_poll 25 0
    (fun _ => inr (JObj [("success", JBool true); ("status", JStr "pending")]))
    = ((map PProcessing sts ++ [PTimeout])%list, 20%nat) /\ length sts = 20%nat.
Proof.
  apply popup_poll_gives_up_after_20; [|lia].
  intro k. eexists. split; [reflexivity|]. split; [reflexivity|]. right. reflexivity.
Defined.

(** ** Relative dates *)

(** [formatDate] shows "Just now" under a minute (also for a date in the
    future), whole minutes 1 to 59 under an hour, whole hours 1 to 23 under
    a day, and the locale date and time from a day on. *)
Theorem formatDate_ranges (diff : Z) (locale : string) :
  (diff < 60000 -> formatDate diff locale = "Just now")%Z
  /\ (60000 <= diff < 3600000 ->
      exists m, 1 <= m <= 59 /\ formatDate diff locale = show_Z m ++ "m ago")%Z
  /\ (3600000 <= diff < 86400000 ->
      exists h, 1 <= h <= 23 /\ formatDate diff locale = show_Z h ++ "h ago")%Z
  /\ (86400000 <= diff -> formatDate diff locale = locale)%Z.
Proof.
  unfold formatDate. split; [|split; [|split]]; intro H.
  - rewrite (proj2 (Z.ltb_lt _ _) H). reflexivity.
  - rewrite (proj2 (Z.ltb_ge _ _) (proj1 H)), (proj2 (Z.ltb_lt _ _) (proj2 H)).
    exists (diff / 60000)%Z. split; [|reflexivity].
    assert (diff / 60000 < 60)%Z by (apply Z.div_lt_upper_bound; lia).
    split; [apply Z.div_le_lower_bound | ]; lia.
  - rewrite (proj2 (Z.ltb_ge diff 60000) ltac:(lia)),
      (proj2 (Z.ltb_ge _ _) (proj1 H)), (proj2 (Z.ltb_lt _ _) (proj2 H)).
    exists (diff / 3600000)%Z. split; [|reflexivity].
    assert (diff / 3600000 < 24)%Z by (apply Z.div_lt_upper_bound; lia).
    split; [apply Z.div_le_lower_bound | ]; lia.
  - rewrite (proj2 (Z.ltb_ge diff 60000) ltac:(lia)),
      (proj2 (Z.ltb_ge diff 3600000) ltac:(lia)), (proj2 (Z.ltb_ge _ _) H).
    reflexivity.
Qed.

Lemma formatDate_ranges_witness :
  formatDate (-5000) "1/1/2026 10:00:00" = "Just now"
  /\ formatDate 90000000 "1/1/2026 10:00:00" = "1/1/2026 10:00:00".
Proof.
  split.
  - apply (proj1 (formatDate_ranges (-5000) "1/1/2026 10:00:00")). lia.
  - apply (proj2 (proj2 (proj2 (formatDate_ranges 90000000 "1/1/2026 10:00:00")))). lia.
Defined.

(** ** Timer range *)

Ltac qdec := vm_compute; first [reflexivity | intro; discriminate].

(** A timer waits the delay it is given, to the millisecond, as long as
    that delay is below 2^31 ms.  Every delay an answered poll schedules
    is, and so is every [catch] delay up to attempt 34.  From attempt 35 the
    [catch] delay is at least 2^31 ms, and the timer wraps it to a wait
    below 2^31 ms, shorter than the delay the code computed.  At attempt
    35 the wait is 0, so the retry runs at once. *)
Theorem catch_retry_delay_overflows_timer (a : nat) :
  (a < POLL_MAX_ATTEMPTS)%nat ->
  (inject_Z (timer_delay (next_delay a)) <= next_delay a
     < inject_Z (timer_delay (next_delay a)) + 1)%Q
  /\ ((a <= 34)%nat ->
      (inject_Z (timer_delay (catch_delay a)) <= catch_delay a
         < inject_Z (timer_delay (catch_delay a)) + 1)%Q)
  /\ ((35 <= a)%nat ->
      (inject_Z (timer_delay (catch_delay a)) < 2147483648 <= catch_delay a)%Q)
  /\ timer_delay (catch_delay 35) = 0%Z.
Proof.
  unfold POLL_MAX_ATTEMPTS. intro Ha.
  split; [|split; [|split]].
  - do 60 (destruct a as [|a]; [split; qdec|]). lia.
  - intro Hk. do 35 (destruct a as [|a]; [split; qdec|]). lia.
  - intro Hk. do 35 (destruct a as [|a]; [lia|]).
    do 25 (destruct a as [|a]; [split; qdec|]). lia.
  - reflexivity.
Qed.

Lemma catch_retry_delay_overflows_timer_witness :
  (inject_Z (timer_delay (catch_delay 40)) < 2147483648 <= catch_delay 40)%Q.
Proof.
  apply (proj1 (proj2 (proj2 (catch_retry_delay_overflows_timer 40 ltac:(unfold POLL_MAX_ATTEMPTS; lia))))).
  lia.
Defined.

(** ** Rescheduling *)

(** A poll schedules another call only below [POLL_MAX_ATTEMPTS] and
    always for the next attempt, in one of two ways: after writing back a
    copy of the job that is still pending or running, with the capped
    delay [next_delay]; or, with the store untouched, from the [catch]
    path with the uncapped [catch_delay].  A poll that writes a done or
    error record schedules nothing. *)
Theorem poll_reschedules_next_attempt (b : backend) (jobs : store) (jid : string)
    (a : nat) (iso : string) (d : Q) (a' : nat) :
  snd (pollJobStatus b jobs jid a iso) = Some (d, a') ->
  a' = S a /\ (a < POLL_MAX_ATTEMPTS)%nat
  /\ ((d = next_delay a
       /\ exists r', fst (fst (pollJobStatus b jobs jid a iso)) = updateJob jobs r'
            /\ r'.(id) = jid /\ is_active r' = true)
      \/ (d = catch_delay a /\ fst (fst (pollJobStatus b jobs jid a iso)) = jobs)).
Proof.
  unfold pollJobStatus.
  destruct (Nat.leb POLL_MAX_ATTEMPTS a) eqn:Ha; [cbn [snd]; discriminate|].
  apply Nat.leb_gt in Ha.
  unfold poll_begin. destruct (getJobById jobs jid) as [job|] eqn:E; [|cbn [snd]; discriminate].
  destruct (is_terminal job); [cbn [snd]; discriminate|].
  pose proof (getJobById_id _ _ _ E) as Hid.
  unfold poll_finish. cbv zeta.
  destruct_matches_eqn; cbn [snd fst]; intro H; try discriminate;
    injection H as <- <-; (split; [reflexivity|]); (split; [exact Ha|]);
    first [right; split; reflexivity
          | left; split; [reflexivity|]; eexists; split; [reflexivity|];
            split; [exact Hid | assumption]].
Qed.

Lemma poll_reschedules_next_attempt_witness :
  snd (pollJobStatus running_backend [sample_job] "job-1" 0 "t") = Some (next_delay 0, 1%nat)
  /\ (1 = S 0)%nat.
Proof.
  split; [reflexivity|].
  apply (proj1 (poll_reschedules_next_attempt running_backend [sample_job] "job-1" 0 "t"
                  (next_delay 0) 1 ltac:(reflexivity))).
Defined.
